(** * ec-sensor: Modbus-RTU codec and RS-485 transport of the Taidacent
      soil sensor (NPK, EC, pH)

    A shallow embedding of [src/sensor.py] and [src/rs485.py].  Python
    integers are unbounded, so they are [Z] without any wrap-around; a
    [bytes] object is a [list byte]; Python floats are the kernel's
    binary64 floats.  Logging calls are dropped: they neither change the
    objects nor the values returned. *)

From Stdlib Require Import ZArith Lia Bool List.
From Stdlib Require Import Strings.Byte.
From Stdlib Require Import Floats Numbers.Cyclic.Int63.Uint63.
From stdpp Require Import base option gmap strings list.

Local Open Scope Z_scope.

(** A decimal float literal stands for the nearest binary64 number, as it
    does in Python: [6.8] is 0x1.b333333333333p+2. *)
Set Warnings "-inexact-float".

(** ** The fragment of the Python runtime the two modules use *)

Module Py.

(** Exceptions that the modelled calls can raise. *)
Inductive exn : Type :=
| ValueError        (* bytes([...]) with an item outside range(256) *)
| StructError       (* struct.pack / struct.unpack *)
| IndexError        (* subscript out of range *)
| ImportError       (* pyserial is not installed *)
| SerialException   (* raised by the serial port *)
| OtherError.       (* anything else a collaborator may raise *)

(** The result of evaluating an expression: a value or a raised
    exception. *)
Inductive outcome (A : Type) : Type :=
| Return (a : A)
| Raise (e : exn).
Arguments Return {A} a.
Arguments Raise {A} e.

Definition obind {A B} (x : outcome A) (k : A -> outcome B) : outcome B :=
  match x with
  | Return a => k a
  | Raise e => Raise e
  end.

(** Statements running against an object of type [S]: the object after
    the statement is returned next to the outcome. *)
Definition M (S A : Type) : Type := S -> outcome A * S.

Definition ret {S A} (a : A) : M S A := fun s => (Return a, s).
Definition raise {S A} (e : exn) : M S A := fun s => (Raise e, s).
Definition bind {S A B} (m : M S A) (k : A -> M S B) : M S B :=
  fun s => match m s with
           | (Return a, s') => k a s'
           | (Raise e, s') => (Raise e, s')
           end.
Definition get {S} : M S S := fun s => (Return s, s).
Definition put {S} (s : S) : M S unit := fun _ => (Return tt, s).
Definition lift {S A} (x : outcome A) : M S A := fun s => (x, s).

(** [try: body  except Exception as e: handler e] *)
Definition try_except {S A} (body : M S A) (handler : exn -> M S A) : M S A :=
  fun s => match body s with
           | (Return a, s') => (Return a, s')
           | (Raise e, s') => handler e s'
           end.

(** *** bytes *)

Definition bytes : Type := list byte.

(** The integer a byte stands for, as [b[i]] and iteration give it. *)
Definition byte_val (b : byte) : Z := Z.of_N (Byte.to_N b).

Definition byte_of_Z (z : Z) : option byte := Byte.of_N (Z.to_N z).

(** [bytes([x1, ..., xn])]: every item must be in [range(256)]. *)
Fixpoint bytes_of_ints (l : list Z) : outcome bytes :=
  match l with
  | [] => Return []
  | x :: l' =>
      if (0 <=? x) && (x <? 256) then
        match byte_of_Z x with
        | Some b => obind (bytes_of_ints l') (fun bs => Return (b :: bs))
        | None => Raise ValueError
        end
      else Raise ValueError
  end.

(** [b[i]] for a non-negative constant index. *)
Definition index (b : bytes) (i : nat) : outcome Z :=
  match nth_error b i with
  | Some x => Return (byte_val x)
  | None => Raise IndexError
  end.

(** [b[i:j]] for non-negative constant bounds; slices never raise. *)
Definition slice (i j : nat) (b : bytes) : bytes :=
  firstn (j - i) (skipn i b).

(** [r[i:j]] on an [Optional[bytes]]: subscripting [None] raises
    TypeError. *)
Definition slice_of (i j : nat) (r : option bytes) : outcome bytes :=
  match r with
  | Some b => Return (slice i j b)
  | None => Raise OtherError
  end.

(** Truth value of an [Optional[bytes]]: [None] and [b''] are false. *)
Definition truthy (r : option bytes) : bool :=
  match r with
  | None => false
  | Some [] => false
  | Some (_ :: _) => true
  end.

(** [struct.pack('>H', x)] *)
Definition struct_pack_H (x : Z) : outcome bytes :=
  if (0 <=? x) && (x <=? 65535) then
    bytes_of_ints [Z.shiftr x 8; Z.land x 255]
  else Raise StructError.

(** [struct.unpack('>H', b)[0]]: the buffer must hold exactly 2 bytes. *)
Definition struct_unpack_H (b : bytes) : outcome Z :=
  match b with
  | [hi; lo] => Return (Z.lor (Z.shiftl (byte_val hi) 8) (byte_val lo))
  | _ => Raise StructError
  end.

(** [float(n)] for the integers met here (below 2^63, exactly
    representable when below 2^53). *)
Definition float_of_int (n : Z) : float := PrimFloat.of_uint63 (Uint63.of_Z n).

(** Values stored in the result dictionaries. *)
Inductive value : Type :=
| VNone
| VInt (n : Z)
| VFloat (x : float).

End Py.

Import Py.

Declare Scope py_scope.
Delimit Scope py_scope with py.
Notation "x <- m ;; k" := (bind m (fun x => k))
  (at level 100, m at next level, right associativity) : py_scope.
Notation "m ;;; k" := (bind m (fun _ => k))
  (at level 100, right associativity) : py_scope.

Local Open Scope py_scope.

(** ** sensor.py: the frame codec of [TaidacentSoilSensor] *)

Module Codec.

(** One round of [for _ in range(8)]: test the low bit, shift, and fold
    the reflected polynomial in when the bit was set. *)
Definition crc_shift (crc : Z) : Z :=
  if Z.land crc 0x0001 =? 0 then Z.shiftr crc 1
  else Z.lxor (Z.shiftr crc 1) 0xA001.

(** The body of [for byte in data]. *)
Definition crc_byte (crc : Z) (b : byte) : Z :=
  Nat.iter 8 crc_shift (Z.lxor crc (byte_val b)).

(** The accumulator after the loop over [data]. *)
Definition crc_loop (data : bytes) : Z := fold_left crc_byte data 0xFFFF.

(** [calculate_crc16(self, data)] *)
Definition calculate_crc16 (data : bytes) : outcome bytes :=
  let crc := crc_loop data in
  bytes_of_ints [Z.land crc 0xFF; Z.shiftr crc 8].

(** [create_command(self, function_code, register_address, register_count)];
    [device_id] is [self.device_id]. *)
Definition create_command (device_id function_code register_address register_count : Z)
  : outcome bytes :=
  obind (bytes_of_ints [device_id; function_code]) (fun head =>
  obind (struct_pack_H register_address) (fun addr =>
  obind (struct_pack_H register_count) (fun count =>
  let cmd := head ++ addr ++ count in
  obind (calculate_crc16 cmd) (fun crc =>
  Return (cmd ++ crc))))).

(** The pre-built command constants of the class. *)
Definition CMD_READ_N : bytes := [x01; x03; x00; x1e; x00; x01; xe4; x0c].
Definition CMD_READ_P : bytes := [x01; x03; x00; x1f; x00; x01; xb5; xcc].
Definition CMD_READ_K : bytes := [x01; x03; x00; x20; x00; x01; x85; xc0].
Definition CMD_READ_NPK : bytes := [x01; x03; x00; x1e; x00; x03; x65; xcd].
Definition CMD_READ_EC_PH : bytes := [x01; x03; x00; x00; x00; x04; x44; x09].
Definition CMD_READ_EC : bytes := [x01; x03; x00; x02; x00; x01; x25; xca].
Definition CMD_READ_PH : bytes := [x01; x03; x00; x03; x00; x01; x74; x0a].

End Codec.

Import Codec.

(** ** pyserial, the collaborator behind [self.serial_conn]

    pyserial is a third-party library, not part of the repository.  The
    port is modelled by the data its calls depend on.  Real time is
    abstracted by [line]: its head is what the remote end delivers during
    the next wait of the program (a [time.sleep] or a blocking [read]
    that runs into its timeout). *)

Module PySerial.

Record Serial : Type := mkSerial {
  is_open : bool;
  timeout : option float;      (* the [timeout] attribute *)
  in_waiting : bytes;          (* received and not read yet *)
  line : list bytes;           (* deliveries during the waits to come *)
  sent : bytes;                (* everything written so far *)
  write_fault : bool;          (* [write] raises *)
  read_fault : bool            (* [read] and [read_all] raise *)
}.

Definition set_timeout (t : option float) (s : Serial) : Serial :=
  mkSerial (is_open s) t (in_waiting s) (line s) (sent s) (write_fault s) (read_fault s).

(** A timeout the port takes: [None], or a number that is not below zero
    (NaN passes, since [timeout < 0] is false of it). *)
Definition timeout_accepted (t : option float) : bool :=
  match t with
  | Some x => negb (PrimFloat.ltb x 0%float)
  | None => true
  end.

(** [Serial.timeout = t], the property setter: ValueError for a timeout
    below zero, and the attribute is left as it was. *)
Definition assign_timeout (t : option float) : M Serial unit := fun s =>
  if timeout_accepted t then (Return tt, set_timeout t s)
  else (Raise ValueError, s).

Definition set_in_waiting (b : bytes) (s : Serial) : Serial :=
  mkSerial (is_open s) (timeout s) b (line s) (sent s) (write_fault s) (read_fault s).

(** One wait goes by: the next delivery reaches the input buffer. *)
Definition elapse (s : Serial) : Serial :=
  match line s with
  | [] => s
  | chunk :: rest =>
      mkSerial (is_open s) (timeout s) (in_waiting s ++ chunk) rest (sent s)
               (write_fault s) (read_fault s)
  end.

(** [Serial.write(data)] *)
Definition write (data : bytes) : M Serial nat := fun s =>
  if negb (is_open s) then (Raise SerialException, s)
  else if write_fault s then (Raise SerialException, s)
  else (Return (length data),
        mkSerial (is_open s) (timeout s) (in_waiting s) (line s) (sent s ++ data)
                 (write_fault s) (read_fault s)).

(** [Serial.read(size)]: returns as soon as [size] bytes are there, and
    otherwise what has arrived when the timeout expires. *)
Definition read (size : nat) : M Serial bytes := fun s =>
  if negb (is_open s) then (Raise SerialException, s)
  else if read_fault s then (Raise SerialException, s)
  else
    let s1 := if (length (in_waiting s) <? size)%nat then elapse s else s in
    (Return (firstn size (in_waiting s1)),
     set_in_waiting (skipn size (in_waiting s1)) s1).

(** [Serial.read_all()]: the content of the input buffer, without waiting. *)
Definition read_all : M Serial bytes := fun s =>
  if negb (is_open s) then (Raise SerialException, s)
  else if read_fault s then (Raise SerialException, s)
  else (Return (in_waiting s), set_in_waiting [] s).

(** [Serial.close()] *)
Definition close (s : Serial) : Serial :=
  mkSerial false (timeout s) (in_waiting s) (line s) (sent s) (write_fault s) (read_fault s).

End PySerial.

(** ** rs485.py: [RS485Communication] *)

Module RS485.

Import PySerial.

(** What the host offers when a port is looked for and opened. *)
Record Env : Type := mkEnv {
  pyserial_installed : bool;                          (* [import serial] works *)
  comports : outcome (list string);                   (* [port.device] of [list_ports.comports()] *)
  Serial_new : string -> Z -> float -> outcome Serial (* [serial.Serial(port, baudrate, 8, 'N', 1, timeout)] *)
}.

Record RS485Communication : Type := mkRS485 {
  port : option string;
  baudrate : Z;
  timeout : float;
  serial_conn : option Serial;
  system : string;
  is_connected : bool
}.

Definition set_port (p : option string) (c : RS485Communication) : RS485Communication :=
  mkRS485 p (baudrate c) (timeout c) (serial_conn c) (system c) (is_connected c).

Definition set_serial_conn (s : option Serial) (c : RS485Communication) : RS485Communication :=
  mkRS485 (port c) (baudrate c) (timeout c) s (system c) (is_connected c).

Definition set_is_connected (b : bool) (c : RS485Communication) : RS485Communication :=
  mkRS485 (port c) (baudrate c) (timeout c) (serial_conn c) (system c) b.

(** Truth value of [self.port]: [None] and the empty string are false. *)
Definition port_truthy (p : option string) : bool :=
  match p with
  | None => false
  | Some EmptyString => false
  | Some (String _ _) => true
  end.

(** Truth value of [self.serial_conn]: an object is true, [None] false. *)
Definition conn_truthy (s : option Serial) : bool :=
  match s with
  | Some _ => true
  | None => false
  end.

(** [needle in hay] on strings. *)
Fixpoint str_in (needle hay : string) : bool :=
  String.prefix needle hay ||
  match hay with
  | EmptyString => false
  | String _ rest => str_in needle rest
  end.

(** A method call on [self.serial_conn]; on [None] Python raises
    AttributeError. *)
Definition on_serial {A} (op : M Serial A) : M RS485Communication A := fun c =>
  match serial_conn c with
  | Some s => let (r, s') := op s in (r, set_serial_conn (Some s') c)
  | None => (Raise OtherError, c)
  end.

(** [time.sleep(0.05)] and [time.sleep(0.1)], the two pauses of this
    class, of a length [time.sleep] always takes: one wait goes by on the
    line. *)
Definition sleep : M RS485Communication unit := fun c =>
  (Return tt, set_serial_conn (option_map elapse (serial_conn c)) c).

Section WithEnv.

Variable env : Env.

(** [connect(self)] *)
Definition connect : M RS485Communication bool :=
  try_except
    (self <- get;;
     if negb (port_truthy (port self)) then ret false
     else if negb (pyserial_installed env) then ret false
     else
       conn <- lift (Serial_new env (default EmptyString (port self))
                                (baudrate self) (timeout self));;
       self <- get;;
       put (set_serial_conn (Some conn) self);;;
       if PySerial.is_open conn then
         self <- get;; put (set_is_connected true self);;; ret true
       else
         self <- get;; put (set_is_connected false self);;; ret false)
    (fun _ => self <- get;; put (set_is_connected false self);;; ret false).

(** [detect_port(self)] *)
Definition detect_port : M RS485Communication unit :=
  try_except
    (if negb (pyserial_installed env) then ret tt
     else
       available_ports <- lift (comports env);;
       match available_ports with
       | [] => ret tt
       | _ :: _ =>
           self <- get;;
           let hit :=
             if String.eqb (system self) "Windows" then
               find (fun d => str_in "COM" d) available_ports
             else
               find (fun d => str_in "ttyUSB" d || str_in "ttyAMA" d || str_in "ttyS" d)
                    available_ports in
           match hit with
           | Some d => put (set_port (Some d) self)
           | None => ret tt
           end;;;
           self <- get;;
           if port_truthy (port self) then connect;;; ret tt else ret tt
       end)
    (fun _ => ret tt).

(** [__init__(self, port, baudrate, timeout)]: the object once the
    constructor is through; [sys] is [platform.system()]. *)
Definition init (sys : string) (port : option string) (baudrate : Z) (timeout : float)
  : RS485Communication :=
  let self := mkRS485 port baudrate timeout None sys false in
  match port with
  | None => snd (detect_port self)
  | Some _ => snd (connect self)
  end.

End WithEnv.

(** [disconnect(self)] *)
Definition disconnect : M RS485Communication unit :=
  self <- get;;
  match serial_conn self with
  | Some s =>
      if PySerial.is_open s then
        put (set_serial_conn (Some (close s)) self);;;
        self <- get;;
        put (set_is_connected false self)
      else ret tt
  | None => ret tt
  end.

(** [send_command(self, command)] *)
Definition send_command (command : bytes) : M RS485Communication bool :=
  self <- get;;
  if negb (is_connected self) || negb (conn_truthy (serial_conn self)) then ret false
  else
    try_except
      (on_serial (write command);;; ret true)
      (fun _ => ret false).

(** [read_response(self, size, timeout)] *)
Definition read_response (size : option nat) (timeout : option float)
  : M RS485Communication (option bytes) :=
  self <- get;;
  if negb (is_connected self) || negb (conn_truthy (serial_conn self)) then ret None
  else
    try_except
      (original_timeout <-
         match timeout with
         | Some t =>
             original <- on_serial (s <- get;; ret (PySerial.timeout s));;
             on_serial (assign_timeout (Some t));;;
             ret original
         | None => ret None
         end;;
       response <-
         match size with
         | Some n => on_serial (read n)
         | None =>
             response <- on_serial read_all;;
             match response with
             | [] => sleep;;; on_serial read_all
             | _ :: _ => ret response
             end
         end;;
       match original_timeout with
       | Some t => on_serial (assign_timeout (Some t))
       | None => ret tt
       end;;;
       ret (Some response))
      (fun _ => ret None).

(** [send_and_receive(self, command, response_size, timeout)] *)
Definition send_and_receive (command : bytes) (response_size : option nat)
  (timeout : option float) : M RS485Communication (option bytes) :=
  sent_ok <- send_command command;;
  if sent_ok then sleep;;; read_response response_size timeout
  else ret None.

End RS485.

(** ** sensor.py: [TaidacentSoilSensor] *)

Module Sensor.

Import RS485.

(** What the sensor asks of [self.comm].  The class builds an
    [RS485Communication]; the tests put a mock in its place, which may
    return or raise anything. *)
Class Transport (C : Type) : Type := {
  transport_is_connected : C -> bool;
  transport_send_and_receive : bytes -> option nat -> option float -> M C (option bytes);
  transport_disconnect : M C unit
}.

#[export] Instance RS485_Transport : Transport RS485Communication := {|
  transport_is_connected := RS485.is_connected;
  transport_send_and_receive := RS485.send_and_receive;
  transport_disconnect := RS485.disconnect
|}.

Record TaidacentSoilSensor (C : Type) : Type := mkSensor {
  device_id : Z;
  comm : C
}.
Arguments mkSensor {C} device_id comm.
Arguments device_id {C} t.
Arguments comm {C} t.

(** [__init__] with the transport the class builds. *)
Definition init (env : Env) (sys : string) (port : option string) (baudrate : Z)
  (device_id : Z) (timeout : float) : TaidacentSoilSensor RS485Communication :=
  mkSensor device_id (RS485.init env sys port baudrate timeout).

(** The test of the [if] that every read method applies to the response:
    [response and len(response) >= n and response[0] == self.device_id
     and response[1] == 0x03], with [and] evaluated left to right. *)
Definition response_ok (device_id : Z) (n : nat) (response : option bytes) : outcome bool :=
  if truthy response then
    match response with
    | Some r =>
        if (n <=? length r)%nat then
          obind (index r 0) (fun b0 =>
          if b0 =? device_id then
            obind (index r 1) (fun b1 => Return (b1 =? 0x03))
          else Return false)
        else Return false
    | None => Return false
    end
  else Return false.

(** [x / 10.0] *)
Definition div10 (raw : Z) : float := PrimFloat.div (float_of_int raw) 10%float.

Section Methods.

Context {C : Type} `{Transport C}.

(** A method call on [self.comm]. *)
Definition on_comm {A} (op : M C A) : M (TaidacentSoilSensor C) A := fun self =>
  let (r, c') := op (comm self) in (r, mkSensor (device_id self) c').

(** [is_connected(self)] *)
Definition is_connected (self : TaidacentSoilSensor C) : bool :=
  transport_is_connected (comm self).

(** [read_nitrogen(self)] *)
Definition read_nitrogen : M (TaidacentSoilSensor C) (option Z) :=
  try_except
    (response <- on_comm (transport_send_and_receive CMD_READ_N (Some 7%nat) None);;
     self <- get;;
     ok <- lift (response_ok (device_id self) 7 response);;
     if ok then
       nitrogen <- lift (obind (slice_of 3 5 response) struct_unpack_H);;
       ret (Some nitrogen)
     else ret None)
    (fun _ => ret None).

(** [read_phosphorus(self)] *)
Definition read_phosphorus : M (TaidacentSoilSensor C) (option Z) :=
  try_except
    (response <- on_comm (transport_send_and_receive CMD_READ_P (Some 7%nat) None);;
     self <- get;;
     ok <- lift (response_ok (device_id self) 7 response);;
     if ok then
       phosphorus <- lift (obind (slice_of 3 5 response) struct_unpack_H);;
       ret (Some phosphorus)
     else ret None)
    (fun _ => ret None).

(** [read_potassium(self)] *)
Definition read_potassium : M (TaidacentSoilSensor C) (option Z) :=
  try_except
    (response <- on_comm (transport_send_and_receive CMD_READ_K (Some 7%nat) None);;
     self <- get;;
     ok <- lift (response_ok (device_id self) 7 response);;
     if ok then
       potassium <- lift (obind (slice_of 3 5 response) struct_unpack_H);;
       ret (Some potassium)
     else ret None)
    (fun _ => ret None).

(** [read_ec(self)] *)
Definition read_ec : M (TaidacentSoilSensor C) (option Z) :=
  try_except
    (response <- on_comm (transport_send_and_receive CMD_READ_EC (Some 7%nat) None);;
     self <- get;;
     ok <- lift (response_ok (device_id self) 7 response);;
     if ok then
       ec <- lift (obind (slice_of 3 5 response) struct_unpack_H);;
       ret (Some ec)
     else ret None)
    (fun _ => ret None).

(** [read_ph(self)] *)
Definition read_ph : M (TaidacentSoilSensor C) (option float) :=
  try_except
    (response <- on_comm (transport_send_and_receive CMD_READ_PH (Some 7%nat) None);;
     self <- get;;
     ok <- lift (response_ok (device_id self) 7 response);;
     if ok then
       ph_raw <- lift (obind (slice_of 3 5 response) struct_unpack_H);;
       let ph := div10 ph_raw in
       ret (Some ph)
     else ret None)
    (fun _ => ret None).

(** [read_ec_ph(self)] *)
Definition read_ec_ph : M (TaidacentSoilSensor C) (gmap string value) :=
  try_except
    (response <- on_comm (transport_send_and_receive CMD_READ_EC_PH (Some 13%nat) None);;
     let result : gmap string value := <["ph" := VNone]> (<["ec" := VNone]> ∅) in
     self <- get;;
     ok <- lift (response_ok (device_id self) 13 response);;
     if ok then
       ec <- lift (obind (slice_of 7 9 response) struct_unpack_H);;
       ph_raw <- lift (obind (slice_of 9 11 response) struct_unpack_H);;
       let ph := div10 ph_raw in
       let result := <["ec" := VInt ec]> result in
       let result := <["ph" := VFloat ph]> result in
       ret result
     else ret result)
    (fun _ => ret (<["ph" := VNone]> (<["ec" := VNone]> ∅))).

(** [read_npk(self)] *)
Definition read_npk : M (TaidacentSoilSensor C) (gmap string value) :=
  try_except
    (response <- on_comm (transport_send_and_receive CMD_READ_NPK (Some 11%nat) None);;
     let result : gmap string value :=
       <["potassium" := VNone]> (<["phosphorus" := VNone]> (<["nitrogen" := VNone]> ∅)) in
     self <- get;;
     ok <- lift (response_ok (device_id self) 11 response);;
     if ok then
       nitrogen <- lift (obind (slice_of 3 5 response) struct_unpack_H);;
       phosphorus <- lift (obind (slice_of 5 7 response) struct_unpack_H);;
       potassium <- lift (obind (slice_of 7 9 response) struct_unpack_H);;
       let result := <["nitrogen" := VInt nitrogen]> result in
       let result := <["phosphorus" := VInt phosphorus]> result in
       let result := <["potassium" := VInt potassium]> result in
       ret result
     else ret result)
    (fun _ => ret (<["potassium" := VNone]> (<["phosphorus" := VNone]>
                     (<["nitrogen" := VNone]> ∅)))).

(** [read_all(self)]: [{**npk_data, **ec_ph_data}], the right operand
    winning on a shared key. *)
Definition read_all : M (TaidacentSoilSensor C) (gmap string value) :=
  npk_data <- read_npk;;
  ec_ph_data <- read_ec_ph;;
  ret (ec_ph_data ∪ npk_data).

(** [close(self)] *)
Definition close : M (TaidacentSoilSensor C) unit :=
  on_comm transport_disconnect.

End Methods.

End Sensor.

(** ** Vocabulary of the statements *)

Module Frames.

Import Sensor.

(** The data field of a response: what follows device id, function code
    and byte count. *)
Definition data_field (r : bytes) : bytes := skipn 3 r.

(** Big-endian unsigned 16-bit value at an offset of a byte sequence. *)
Definition uint16_be (data : bytes) (off : nat) : option Z :=
  match nth_error data off, nth_error data (S off) with
  | Some hi, Some lo => Some (256 * byte_val hi + byte_val lo)
  | _, _ => None
  end.

(** The shape a read method accepts: long enough, the session's device
    id first, function code 3 second. *)
Definition well_formed (device_id : Z) (n : nat) (r : bytes) : Prop :=
  (n <= length r)%nat /\ index r 0 = Return device_id /\ index r 1 = Return 3.

(** The three ways of being turned down that the specification names. *)
Definition rejected (device_id : Z) (n : nat) (r : bytes) : Prop :=
  (length r < n)%nat \/
  (exists b, nth_error r 0 = Some b /\ byte_val b <> device_id) \/
  (exists b, nth_error r 1 = Some b /\ byte_val b <> 3).

(** The transport hands [r] back for the request [cmd] of [n] bytes. *)
Definition answers {C} `{Transport C} (self : TaidacentSoilSensor C)
  (cmd : bytes) (n : nat) (r : bytes) : Prop :=
  fst (transport_send_and_receive cmd (Some n) None (comm self)) = Return (Some r).

(** The exchange for [cmd] gave nothing a read method accepts: the
    transport raised, returned [None], or returned a response that is not
    well formed. *)
Definition exchange_failed {C} `{Transport C} (self : TaidacentSoilSensor C)
  (cmd : bytes) (n : nat) : Prop :=
  forall r, answers self cmd n r -> ~ well_formed (device_id self) n r.

(** Every value of a result dictionary is [None]. *)
Definition all_none (d : gmap string value) : Prop :=
  forall key v, d !! key = Some v -> v = VNone.

(** [well_formed] as a test. *)
Definition accepts (device_id : Z) (n : nat) (r : bytes) : bool :=
  (n <=? length r)%nat &&
  match r with
  | b0 :: b1 :: _ => (byte_val b0 =? device_id) && (byte_val b1 =? 3)
  | _ => false
  end.

(** The five single-register methods are one text, up to the command
    sent and what is made of the register value. *)
Definition read_single {C} `{Transport C} {A} (cmd : bytes) (scale : Z -> A)
  : M (TaidacentSoilSensor C) (option A) :=
  try_except
    (response <- on_comm (transport_send_and_receive cmd (Some 7%nat) None);;
     self <- get;;
     ok <- lift (response_ok (device_id self) 7 response);;
     if ok then
       raw <- lift (obind (slice_of 3 5 response) struct_unpack_H);;
       ret (Some (scale raw))
     else ret None)
    (fun _ => ret None).

(** The dictionaries the group methods start from and fall back to. *)
Definition npk_unavailable : gmap string value :=
  <["potassium" := VNone]> (<["phosphorus" := VNone]> (<["nitrogen" := VNone]> ∅)).

Definition ec_ph_unavailable : gmap string value :=
  <["ph" := VNone]> (<["ec" := VNone]> ∅).

(** The float [x] is a binary64 number with a 53-bit mantissa [m] and
    exponent [e], [x = m * 2^e], at most half a unit in the last place
    away from [raw / 10]: [|20 * m - raw * 2^(1 - e)| <= 10] is
    [|m * 2^e - raw / 10| <= 2^(e - 1)] cleared of fractions. *)
Definition nearest_tenth (raw : Z) (x : float) : bool :=
  match Prim2SF x with
  | S754_zero false => raw =? 0
  | S754_finite false m e =>
      (2 ^ 52 <=? Zpos m) && (Zpos m <? 2 ^ 53) && (e <? 0) &&
      (Z.abs (20 * Zpos m - raw * 2 ^ (1 - e)) <=? 10)
  | _ => false
  end.

(** [nearest_tenth] holds of [div10] at the [k] integers below [n]. *)
Fixpoint div10_nearest_below (k : nat) (n : Z) : bool :=
  match k with
  | O => true
  | S k' => nearest_tenth (n - 1) (div10 (n - 1)) && div10_nearest_below k' (n - 1)
  end.

(** The check no read method makes: the two trailing bytes are the
    CRC-16 of everything before them. *)
Definition crc_matches (r : bytes) : bool :=
  let body := firstn (length r - 2) r in
  match calculate_crc16 body with
  | Return crc => if List.list_eq_dec Byte.byte_eq_dec crc (skipn (length r - 2) r) then true else false
  | Raise _ => false
  end.

End Frames.

(** ** Sessions *)

Module Session.

Import PySerial RS485.

(** The objects a program can hold: one fresh from the constructor, or
    one on which a method of the class has run, on any host. *)
Inductive reachable : RS485Communication -> Prop :=
| reach_init env sys port baudrate timeout :
    reachable (init env sys port baudrate timeout)
| reach_connect env c :
    reachable c -> reachable (snd (connect env c))
| reach_detect_port env c :
    reachable c -> reachable (snd (detect_port env c))
| reach_disconnect c :
    reachable c -> reachable (snd (disconnect c))
| reach_send_command command c :
    reachable c -> reachable (snd (send_command command c))
| reach_read_response size timeout c :
    reachable c -> reachable (snd (read_response size timeout c))
| reach_send_and_receive command size timeout c :
    reachable c -> reachable (snd (send_and_receive command size timeout c)).

(** The flag [is_connected] is only set while the object holds an open
    port. *)
Definition consistent (c : RS485Communication) : Prop :=
  is_connected c = true -> exists s, serial_conn c = Some s /\ is_open s = true.

(** A statement keeps a property of the object it runs against. *)
Definition preserves {S A} (P : S -> Prop) (m : M S A) : Prop :=
  forall s, P s -> P (snd (m s)).

(** What has reached the port when a read that asked for more gives up:
    the deliveries during the pause after the write and during the read
    itself, after what was waiting already. *)
Definition arrived (s : Serial) : bytes := in_waiting (elapse (elapse s)).

(** A read with the per-call timeout [t] changes the timeout of the port
    [s] twice, to [t] and back: both are values the port takes.  Without
    a per-call timeout nothing is assigned. *)
Definition timeouts_accepted (t : option float) (s : Serial) : Prop :=
  match t with
  | Some x =>
      timeout_accepted (Some x) = true /\ timeout_accepted (PySerial.timeout s) = true
  | None => True
  end.

(** The port after a successful write. *)
Definition after_write (command : bytes) (s : Serial) : Serial :=
  mkSerial (is_open s) (PySerial.timeout s) (in_waiting s) (line s) (sent s ++ command)
           (write_fault s) (read_fault s).

End Session.

(** ** A bench: a host with one USB adapter and a scripted line *)

Module Bench.

Import PySerial RS485 Sensor.

(** pyserial is installed, [/dev/ttyUSB0] is listed, and opening a port
    gives an open one whose remote end follows the script [line]. *)
Definition bench_port (line : list bytes) (t : float) : Serial :=
  mkSerial true (Some t) [] line [] false false.

Definition bench_env (line : list bytes) : Env :=
  mkEnv true (Return ["/dev/ttyUSB0"%string]) (fun _ _ t => Return (bench_port line t)).

(** A host without pyserial: no port is ever opened. *)
Definition bare_env : Env :=
  mkEnv false (Raise ImportError) (fun _ _ _ => Raise ImportError).

(** [TaidacentSoilSensor()] on that host: port auto-detected, 9600 baud,
    device id 1, timeout 1.0. *)
Definition bench_sensor (line : list bytes) : TaidacentSoilSensor RS485Communication :=
  Sensor.init (bench_env line) "Linux" None 9600 1 1%float.

(** A stand-in for the transport, as the tests use one: every exchange
    has the outcome it was built with. *)
Record Mock : Type := mkMock { reply : outcome (option bytes) }.

#[export] Instance Mock_Transport : Transport Mock := {|
  transport_is_connected := fun _ => true;
  transport_send_and_receive := fun _ _ _ m => (reply m, m);
  transport_disconnect := fun m => (Return tt, m)
|}.

(** Register value 100, with the CRC of the frame. *)
Definition frame_100 : bytes := [x01; x03; x02; x00; x64; xb9; xaf].
(** The same frame from device 2. *)
Definition frame_other_device : bytes := [x02; x03; x02; x00; x64; xb9; xaf].
(** The same frame with two zero bytes where the CRC goes. *)
Definition frame_bad_crc : bytes := [x01; x03; x02; x00; x64; x00; x00].
(** The same frame announcing 255 data bytes. *)
Definition frame_byte_count_255 : bytes := [x01; x03; xff; x00; x64; xb9; xaf].
(** Only the first three bytes of the frame. *)
Definition frame_cut : bytes := [x01; x03; x02].
(** Register values 250 and 68. *)
Definition frame_250 : bytes := [x01; x03; x02; x00; xfa; x00; x00].
Definition frame_68 : bytes := [x01; x03; x02; x00; x44; x00; x00].
(** N = 10, P = 20, K = 30. *)
Definition frame_npk : bytes :=
  [x01; x03; x06; x00; x0a; x00; x14; x00; x1e; x00; x00].
(** Humidity 500, temperature 253, EC 1000, pH register 68. *)
Definition frame_ec_ph : bytes :=
  [x01; x03; x08; x01; xf4; x00; xfd; x03; xe8; x00; x44; x00; x00].

End Bench.

(** ** main.py: the command-line tool *)

Module Main.

Import RS485 Sensor.

(** The parsed command line: [args.port], [args.baudrate],
    [args.interval], [args.count] and [args.mode]. *)
Record Args : Type := mkArgs {
  args_port : option string;
  args_baudrate : Z;
  args_interval : float;
  args_count : Z;
  args_mode : string
}.

(** An [Optional[int]] and an [Optional[float]] as dictionary values. *)
Definition value_of_int (o : option Z) : value :=
  match o with
  | Some n => VInt n
  | None => VNone
  end.

Definition value_of_float (o : option float) : value :=
  match o with
  | Some x => VFloat x
  | None => VNone
  end.

Section Measure.

Context {C : Type} `{Transport C}.

(** [measure_and_display(sensor, mode)]; the [print] calls are dropped.
    [result] is [{}] until a read method has returned. *)
Definition measure_and_display (mode : string)
  : M (TaidacentSoilSensor C) (gmap string value) :=
  try_except
    (if String.eqb mode "all" then read_all
     else if String.eqb mode "npk" then read_npk
     else if String.eqb mode "ec_ph" then read_ec_ph
     else if String.eqb mode "n" then
       nitrogen <- read_nitrogen;; ret {["nitrogen" := value_of_int nitrogen]}
     else if String.eqb mode "p" then
       phosphorus <- read_phosphorus;; ret {["phosphorus" := value_of_int phosphorus]}
     else if String.eqb mode "k" then
       potassium <- read_potassium;; ret {["potassium" := value_of_int potassium]}
     else if String.eqb mode "ec" then
       ec <- read_ec;; ret {["ec" := value_of_int ec]}
     else if String.eqb mode "ph" then
       ph <- read_ph;; ret {["ph" := value_of_float ph]}
     else ret ∅)
    (fun _ => ret ∅).

End Measure.

(** [time.sleep(secs)] on a number the command line supplies: ValueError
    for NaN, OverflowError (here [OtherError]) when the length in
    nanoseconds does not fit 64 bits, ValueError for a negative length;
    otherwise one wait goes by on the line. *)
Definition time_sleep (secs : float) : M RS485Communication unit :=
  if PrimFloat.is_nan secs then raise ValueError
  else if negb (PrimFloat.ltb (PrimFloat.abs (PrimFloat.mul secs 1000000000%float))
                              9223372036854775808%float) then raise OtherError
  else if PrimFloat.ltb secs 0%float then raise ValueError
  else sleep.

(** The [while] loop of [main]: [count] measurements so far.  [fuel]
    bounds the number of turns; [None] is returned when it runs out
    with the loop still going. *)
Fixpoint poll (fuel : nat) (args : Args) (count : Z)
  : M (TaidacentSoilSensor RS485Communication) (option unit) :=
  match fuel with
  | O => ret None
  | S fuel' =>
      if (args_count args =? 0) || (count <? args_count args) then
        measure_and_display (args_mode args);;;
        let count := count + 1 in
        (if (args_count args =? 0) || (count <? args_count args)
         then on_comm (time_sleep (args_interval args)) else ret tt);;;
        poll fuel' args count
      else ret (Some tt)
  end.

(** [main()] once the command line is parsed: the exit code and the
    sensor object at the end, or [None] for the code when [fuel] turns of
    the loop were not enough.  The sensor is built with the defaults of
    its constructor, device id 1 and timeout 1.0. *)
Definition main (env : Env) (sys : string) (args : Args) (fuel : nat)
  : outcome (option Z) * TaidacentSoilSensor RS485Communication :=
  let sensor := Sensor.init env sys (args_port args) (args_baudrate args) 1 1%float in
  try_except
    (if negb (Sensor.is_connected sensor) then ret (Some 1)
     else
       done <- poll fuel args 0;;
       match done with
       | Some _ => Sensor.close;;; ret (Some 0)
       | None => ret None
       end)
    (fun _ => Sensor.close;;; ret (Some 1))
    sensor.

End Main.

(** ** Vocabulary of the further statements *)

Module Port.

Import PySerial RS485 Sensor.

(** A statement that returns, whatever the object it runs against. *)
Definition returns {S A} (m : M S A) : Prop :=
  forall s, exists a, fst (m s) = Return a.

(** Everything the port has received or will receive, in order. *)
Definition pending (s : Serial) : bytes := in_waiting s ++ concat (line s).

(** The session is connected through the open port [s], which raises
    nothing. *)
Definition healthy (c : RS485Communication) (s : Serial) : Prop :=
  serial_conn c = Some s /\ RS485.is_connected c = true /\
  is_open s = true /\ write_fault s = false /\ read_fault s = false.

(** What has been written to the port of a session. *)
Definition sent_log (c : RS485Communication) : bytes :=
  match serial_conn c with
  | Some s => sent s
  | None => []
  end.

(** The [timeout] attribute of the port of a session. *)
Definition port_timeout (c : RS485Communication) : option float :=
  match serial_conn c with
  | Some s => PySerial.timeout s
  | None => None
  end.

(** The port after a sized read with a per-call timeout [t] has gone
    well: the timeout is set, the read takes its bytes, waiting if it
    must, and the timeout found is put back when there was one. *)
Definition after_read (size : nat) (t : option float) (s : Serial) : Serial :=
  let s0 := match t with Some t' => set_timeout (Some t') s | None => s end in
  let s1 := if (length (in_waiting s0) <? size)%nat then elapse s0 else s0 in
  let s2 := set_in_waiting (skipn size (in_waiting s1)) s1 in
  match t, PySerial.timeout s with
  | Some _, Some t0 => set_timeout (Some t0) s2
  | _, _ => s2
  end.

(** The port after a whole exchange has gone well: write, pause, read. *)
Definition after_exchange (command : bytes) (size : nat) (t : option float)
  (s : Serial) : Serial :=
  after_read size t (elapse (Session.after_write command s)).


(** The test [detect_port] applies to a device name, by platform. *)
Definition port_pattern (sys : string) (d : string) : bool :=
  if String.eqb sys "Windows" then str_in "COM" d
  else str_in "ttyUSB" d || str_in "ttyAMA" d || str_in "ttyS" d.

(** The requests a measurement in a given mode makes, in order, each
    with the response length it expects. *)
Definition requests_of_mode (mode : string) : list (bytes * nat) :=
  if String.eqb mode "all" then [(CMD_READ_NPK, 11%nat); (CMD_READ_EC_PH, 13%nat)]
  else if String.eqb mode "npk" then [(CMD_READ_NPK, 11%nat)]
  else if String.eqb mode "ec_ph" then [(CMD_READ_EC_PH, 13%nat)]
  else if String.eqb mode "n" then [(CMD_READ_N, 7%nat)]
  else if String.eqb mode "p" then [(CMD_READ_P, 7%nat)]
  else if String.eqb mode "k" then [(CMD_READ_K, 7%nat)]
  else if String.eqb mode "ec" then [(CMD_READ_EC, 7%nat)]
  else if String.eqb mode "ph" then [(CMD_READ_PH, 7%nat)]
  else [].


(** The sensor after a list of exchanges, one after the other. *)
Fixpoint after_requests {C} `{Transport C} (requests : list (bytes * nat))
  (self : TaidacentSoilSensor C) : TaidacentSoilSensor C :=
  match requests with
  | [] => self
  | (cmd, n) :: rest =>
      after_requests rest
        (mkSensor (device_id self)
           (snd (transport_send_and_receive cmd (Some n) None (comm self))))
  end.

(** The keys of the dictionary a measurement in a given mode returns. *)
Definition keys_of_mode (mode : string) : gset string :=
  if String.eqb mode "all" then {["nitrogen"; "phosphorus"; "potassium"; "ec"; "ph"]}
  else if String.eqb mode "npk" then {["nitrogen"; "phosphorus"; "potassium"]}
  else if String.eqb mode "ec_ph" then {["ec"; "ph"]}
  else if String.eqb mode "n" then {["nitrogen"]}
  else if String.eqb mode "p" then {["phosphorus"]}
  else if String.eqb mode "k" then {["potassium"]}
  else if String.eqb mode "ec" then {["ec"]}
  else if String.eqb mode "ph" then {["ph"]}
  else ∅.

End Port.

Import PySerial RS485 Sensor Frames Session Bench.
Import Main Port.

(** * Properties *)

(** ** Bytes and the [struct] codec *)

Lemma byte_val_range (b : byte) : 0 <= byte_val b < 256.
Proof.
  unfold byte_val. pose proof (Byte.to_N_bounded b) as Hb. lia.
Qed.

Lemma byte_of_Z_val (z : Z) :
  0 <= z < 256 -> exists b, byte_of_Z z = Some b /\ byte_val b = z.
Proof.
  intros Hz. unfold byte_of_Z, byte_val.
  destruct (Byte.of_N (Z.to_N z)) as [b|] eqn:E.
  - exists b. split; [reflexivity|].
    apply Byte.to_of_N in E. rewrite E. lia.
  - apply Byte.of_N_None_iff in E. lia.
Qed.

Lemma bytes_of_ints_pair (x y : Z) :
  0 <= x < 256 -> 0 <= y < 256 ->
  exists bx b_y, bytes_of_ints [x; y] = Return [bx; b_y]
                 /\ byte_val bx = x /\ byte_val b_y = y.
Proof.
  intros Hx Hy.
  destruct (byte_of_Z_val x Hx) as (bx & Ex & Vx).
  destruct (byte_of_Z_val y Hy) as (b_y & Ey & Vy).
  exists bx, b_y. cbn [bytes_of_ints].
  replace ((0 <=? x) && (x <? 256)) with true by (symmetry; apply andb_true_iff; split; [apply Z.leb_le | apply Z.ltb_lt]; lia).
  replace ((0 <=? y) && (y <? 256)) with true by (symmetry; apply andb_true_iff; split; [apply Z.leb_le | apply Z.ltb_lt]; lia).
  rewrite Ex, Ey. cbn. auto.
Qed.

(** Shifting the high byte and or-ing the low one in is [256 * hi + lo]. *)
Lemma lor_shiftl_bytes (hi lo : Z) :
  0 <= hi -> 0 <= lo < 256 -> Z.lor (Z.shiftl hi 8) lo = 256 * hi + lo.
Proof.
  intros Hhi Hlo.
  assert (Hland : Z.land (Z.shiftl hi 8) lo = 0).
  { apply Z.bits_inj'. intros n Hn.
    rewrite Z.land_spec, Z.bits_0.
    destruct (Z.lt_ge_cases n 8) as [Hlt|Hge].
    - rewrite Z.shiftl_spec_low by lia. reflexivity.
    - replace (Z.testbit lo n) with false; [apply andb_false_r|].
      symmetry. destruct (Z.eq_dec lo 0) as [->|Hne]; [apply Z.bits_0|].
      apply Z.bits_above_log2; [lia|].
      apply Z.lt_le_trans with 8; [|lia].
      apply Z.log2_lt_pow2; lia. }
  rewrite <- Z.lxor_lor by exact Hland.
  rewrite <- Z.add_nocarry_lxor by exact Hland.
  rewrite Z.shiftl_mul_pow2 by lia. change (2 ^ 8) with 256. lia.
Qed.

Lemma struct_unpack_H_pair (hi lo : byte) :
  struct_unpack_H [hi; lo] = Return (256 * byte_val hi + byte_val lo).
Proof.
  cbn [struct_unpack_H]. f_equal.
  apply lor_shiftl_bytes; [apply byte_val_range | apply byte_val_range].
Qed.

(** ** CRC-16 *)

Lemma lxor_below_pow2 (a b n : Z) :
  0 < n -> 0 <= a < 2 ^ n -> 0 <= b < 2 ^ n -> 0 <= Z.lxor a b < 2 ^ n.
Proof.
  intros Hn Ha Hb.
  assert (Hnn : 0 <= Z.lxor a b) by (apply Z.lxor_nonneg; lia).
  split; [exact Hnn|].
  destruct (Z.eq_dec (Z.lxor a b) 0) as [->|Hne]; [lia|].
  apply Z.log2_lt_pow2; [lia|].
  eapply Z.le_lt_trans; [apply Z.log2_lxor; lia|].
  apply Z.max_lub_lt.
  - destruct (Z.eq_dec a 0) as [->|?]; [cbn; lia | apply Z.log2_lt_pow2; lia].
  - destruct (Z.eq_dec b 0) as [->|?]; [cbn; lia | apply Z.log2_lt_pow2; lia].
Qed.

Lemma crc_shift_range (crc : Z) : 0 <= crc < 65536 -> 0 <= crc_shift crc < 65536.
Proof.
  intros Hc. unfold crc_shift.
  assert (Hs : 0 <= Z.shiftr crc 1 < 32768).
  { rewrite Z.shiftr_div_pow2 by lia. change (2 ^ 1) with 2.
    split; [apply Z.div_pos; lia | apply Z.div_lt_upper_bound; lia]. }
  destruct (Z.land crc 1 =? 0); [lia|].
  apply (lxor_below_pow2 _ _ 16); lia.
Qed.

Lemma crc_byte_range (crc : Z) (b : byte) :
  0 <= crc < 65536 -> 0 <= crc_byte crc b < 65536.
Proof.
  intros Hc. unfold crc_byte.
  assert (H0 : 0 <= Z.lxor crc (byte_val b) < 65536).
  { pose proof (byte_val_range b). apply (lxor_below_pow2 _ _ 16); lia. }
  generalize dependent (Z.lxor crc (byte_val b)). intros z Hz.
  do 8 (cbn [Nat.iter]; try apply crc_shift_range). exact Hz.
Qed.

Lemma crc_loop_range (data : bytes) : 0 <= crc_loop data < 65536.
Proof.
  unfold crc_loop.
  assert (H : 0 <= 0xFFFF < 65536) by lia.
  generalize dependent 0xFFFF. induction data as [|b data IH]; intros crc Hc.
  - exact Hc.
  - cbn [fold_left]. apply IH, crc_byte_range, Hc.
Qed.

(** [calculate_crc16] never raises: it returns the low byte of the
    accumulator and then its high byte. *)
Lemma calculate_crc16_bytes (data : bytes) :
  exists lo hi, calculate_crc16 data = Return [lo; hi]
                /\ byte_val lo = crc_loop data mod 256
                /\ byte_val hi = crc_loop data / 256.
Proof.
  pose proof (crc_loop_range data) as Hc. unfold calculate_crc16.
  change 0xFF with (Z.ones 8). rewrite Z.land_ones by lia.
  rewrite Z.shiftr_div_pow2 by lia. change (2 ^ 8) with 256.
  destruct (bytes_of_ints_pair (crc_loop data mod 256) (crc_loop data / 256))
    as (lo & hi & E & Vlo & Vhi).
  - apply Z.mod_pos_bound; lia.
  - split; [apply Z.div_pos; lia | apply Z.div_lt_upper_bound; lia].
  - exists lo, hi. auto.
Qed.

(** C1. With device id 1 and function code 3, [create_command] rebuilds
    each of the seven pre-built command constants from the start address
    and register count of the address table; for Nitrogen the frame is
    01 03 00 1E 00 01 E4 0C. *)
Theorem create_command_rebuilds_constants :
  create_command 1 3 0x001E 1 = Return CMD_READ_N /\
  create_command 1 3 0x001F 1 = Return CMD_READ_P /\
  create_command 1 3 0x0020 1 = Return CMD_READ_K /\
  create_command 1 3 0x001E 3 = Return CMD_READ_NPK /\
  create_command 1 3 0x0002 1 = Return CMD_READ_EC /\
  create_command 1 3 0x0003 1 = Return CMD_READ_PH /\
  create_command 1 3 0x0000 4 = Return CMD_READ_EC_PH /\
  create_command 1 3 0x001E 1 = Return [x01; x03; x00; x1e; x00; x01; xe4; x0c].
Proof. repeat split; vm_compute; reflexivity. Qed.

(** C2, as stated, fails: on 01 03 00 1E 00 01 the two bytes returned are
    not 0C then E4. *)
Lemma calculate_crc16_not_high_byte_first :
  calculate_crc16 [x01; x03; x00; x1e; x00; x01] <> Return [x0c; xe4].
Proof. vm_compute. discriminate. Qed.

(** C2, amended. On 01 03 00 1E 00 01 the accumulator ends as 0x0CE4 and
    [calculate_crc16] returns its low byte E4 first and its high byte 0C
    second, the order in which they close CMD_READ_N. *)
Theorem calculate_crc16_nitrogen_request :
  crc_loop [x01; x03; x00; x1e; x00; x01] = 0x0CE4 /\
  calculate_crc16 [x01; x03; x00; x1e; x00; x01] = Return [xe4; x0c] /\
  [x01; x03; x00; x1e; x00; x01] ++ [xe4; x0c] = CMD_READ_N.
Proof. repeat split; vm_compute; reflexivity. Qed.

(** ** Acceptance of a response *)

Lemma accepts_well_formed (id : Z) (n : nat) (r : bytes) :
  accepts id n r = true <-> well_formed id n r.
Proof.
  unfold accepts, well_formed, index.
  destruct r as [|b0 [|b1 r]]; cbn [nth_error length].
  - rewrite andb_false_r. split; [discriminate|]. intros (_ & E & _). discriminate.
  - rewrite andb_false_r. split; [discriminate|]. intros (_ & _ & E). discriminate.
  - rewrite !andb_true_iff, Nat.leb_le, !Z.eqb_eq. split.
    + intros (Hn & -> & ->). auto.
    + intros (Hn & E0 & E1). injection E0 as E0. injection E1 as E1. auto.
Qed.

Lemma rejected_not_accepts (id : Z) (n : nat) (r : bytes) :
  rejected id n r -> accepts id n r = false.
Proof.
  intros Hrej. destruct (accepts id n r) eqn:E; [|reflexivity].
  apply accepts_well_formed in E. destruct E as (Hn & E0 & E1).
  unfold index in *.
  destruct Hrej as [Hlen | [(b & Hb & Hne) | (b & Hb & Hne)]].
  - lia.
  - rewrite Hb in E0. injection E0 as E0. contradiction.
  - rewrite Hb in E1. injection E1 as E1. contradiction.
Qed.

(** The test of the methods never raises when at least two bytes are
    asked for: the subscripts are guarded by the length test. *)
Lemma response_ok_accepts (id : Z) (n : nat) (response : option bytes) :
  (2 <= n)%nat ->
  response_ok id n response =
  Return (match response with Some r => accepts id n r | None => false end).
Proof.
  intros Hn. unfold response_ok, accepts, index.
  destruct response as [[|b0 [|b1 r]]|]; cbn [truthy nth_error length obind].
  - destruct n; [lia|]. reflexivity.
  - destruct (n <=? 1)%nat eqn:E; [apply Nat.leb_le in E; lia | reflexivity].
  - destruct (n <=? _)%nat; [|reflexivity]. cbn [andb].
    destruct (byte_val b0 =? id); reflexivity.
  - reflexivity.
Qed.

(** Decoding two bytes at an offset of the data field. *)
Lemma unpack_at (data : bytes) (off : nat) :
  (off + 2 <= length data)%nat ->
  exists v, uint16_be data off = Some v
            /\ struct_unpack_H (firstn 2 (skipn off data)) = Return v
            /\ 0 <= v < 65536.
Proof.
  revert data. induction off as [|off IH]; intros data Hlen.
  - destruct data as [|hi [|lo data]]; cbn [length] in Hlen; try lia.
    exists (256 * byte_val hi + byte_val lo). cbn [uint16_be nth_error skipn firstn].
    rewrite struct_unpack_H_pair.
    pose proof (byte_val_range hi). pose proof (byte_val_range lo).
    repeat split; lia.
  - destruct data as [|x data]; cbn [length] in Hlen; [lia|].
    destruct (IH data) as (v & Hv & Hu & Hr); [lia|].
    exists v. unfold uint16_be in *. cbn [nth_error skipn]. auto.
Qed.

(** A response the test lets through has its three header bytes. *)
Lemma accepts_header (id : Z) (n : nat) (r : bytes) :
  (3 <= n)%nat -> accepts id n r = true ->
  exists b0 b1 b2 data, r = b0 :: b1 :: b2 :: data /\ (n - 3 <= length data)%nat.
Proof.
  intros Hn Hacc. unfold accepts in Hacc.
  apply andb_true_iff in Hacc. destruct Hacc as [Hlen _].
  apply Nat.leb_le in Hlen.
  destruct r as [|b0 [|b1 [|b2 data]]]; cbn [length] in Hlen; try lia.
  exists b0, b1, b2, data. split; [reflexivity | lia].
Qed.

(** ** The single-register methods *)

Section SingleRegister.

Context {C : Type} `{Transport C} {A : Type}.
Variables (cmd : bytes) (scale : Z -> A).
Variable self : TaidacentSoilSensor C.

Let exchange := transport_send_and_receive cmd (Some 7%nat) None (comm self).

Lemma read_single_accept (r : bytes) :
  fst exchange = Return (Some r) ->
  accepts (device_id self) 7 r = true ->
  exists v, uint16_be (data_field r) 0 = Some v /\
            read_single cmd scale self
            = (Return (Some (scale v)), mkSensor (device_id self) (snd exchange)).
Proof.
  subst exchange. intros Hx Hacc.
  destruct (accepts_header (device_id self) 7 r ltac:(lia) Hacc) as (b0 & b1 & b2 & data & -> & Hlen).
  destruct (unpack_at data 0 ltac:(lia)) as (v & Hv & Hu & _).
  exists v. split; [exact Hv|].
  unfold read_single, try_except, bind, on_comm, lift, get, ret.
  destruct (transport_send_and_receive _ _ _ _) as [o c']. cbn [fst snd] in *. subst o.
  rewrite response_ok_accepts by lia. cbn [device_id]. rewrite Hacc.
  cbn [slice_of obind].
  change (slice 3 5 (b0 :: b1 :: b2 :: data)) with (firstn 2 (skipn 0 data)).
  rewrite Hu. reflexivity.
Qed.

Lemma read_single_reject :
  (forall r, fst exchange = Return (Some r) -> accepts (device_id self) 7 r = false) ->
  read_single cmd scale self = (Return None, mkSensor (device_id self) (snd exchange)).
Proof.
  subst exchange. intros Hrej.
  unfold read_single, try_except, bind, on_comm, lift, get, ret.
  destruct (transport_send_and_receive _ _ _ _) as [[o|e] c']; cbn [fst snd] in *.
  - rewrite response_ok_accepts by lia. cbn [device_id].
    destruct o as [r|]; [rewrite (Hrej r eq_refl)|]; reflexivity.
  - reflexivity.
Qed.

(** Whatever the transport does, a single-register method returns. *)
Lemma read_single_returns :
  exists v, fst (read_single cmd scale self) = Return v.
Proof.
  destruct (fst exchange) as [[r|]|e] eqn:Hx.
  - destruct (accepts (device_id self) 7 r) eqn:Hacc.
    + destruct (read_single_accept r Hx Hacc) as (v & _ & ->). eauto.
    + rewrite read_single_reject; [eauto|]. intros r' Hr'. congruence.
  - rewrite read_single_reject; [eauto|]. intros r' Hr'. congruence.
  - rewrite read_single_reject; [eauto|]. intros r' Hr'. congruence.
Qed.

(** A value comes back only for a well-formed response. *)
Lemma read_single_some_inv (a : A) :
  fst (read_single cmd scale self) = Return (Some a) ->
  exists r v, fst exchange = Return (Some r) /\ well_formed (device_id self) 7 r /\
              uint16_be (data_field r) 0 = Some v /\ a = scale v.
Proof.
  intros Hres.
  destruct (fst exchange) as [[r|]|e] eqn:Hx.
  - destruct (accepts (device_id self) 7 r) eqn:Hacc.
    + destruct (read_single_accept r Hx Hacc) as (v & Hv & Hrun).
      rewrite Hrun in Hres. cbn [fst] in Hres.
      exists r, v. repeat split; try (apply accepts_well_formed in Hacc; apply Hacc); auto.
      congruence.
    + rewrite read_single_reject in Hres; [discriminate|]. intros r' Hr'. congruence.
  - rewrite read_single_reject in Hres; [discriminate|]. intros r' Hr'. congruence.
  - rewrite read_single_reject in Hres; [discriminate|]. intros r' Hr'. congruence.
Qed.

End SingleRegister.

(** The five methods are instances of the common text. *)
Lemma read_nitrogen_single {C} `{Transport C} :
  read_nitrogen = read_single CMD_READ_N (fun v => v).
Proof. reflexivity. Qed.

Lemma read_phosphorus_single {C} `{Transport C} :
  read_phosphorus = read_single CMD_READ_P (fun v => v).
Proof. reflexivity. Qed.

Lemma read_potassium_single {C} `{Transport C} :
  read_potassium = read_single CMD_READ_K (fun v => v).
Proof. reflexivity. Qed.

Lemma read_ec_single {C} `{Transport C} :
  read_ec = read_single CMD_READ_EC (fun v => v).
Proof. reflexivity. Qed.

Lemma read_ph_single {C} `{Transport C} :
  read_ph = read_single CMD_READ_PH div10.
Proof. reflexivity. Qed.

(** ** The group methods *)

Section GroupRegisters.

Context {C : Type} `{Transport C}.
Variable self : TaidacentSoilSensor C.

Let npk_exchange := transport_send_and_receive CMD_READ_NPK (Some 11%nat) None (comm self).
Let ec_ph_exchange := transport_send_and_receive CMD_READ_EC_PH (Some 13%nat) None (comm self).

Lemma read_npk_accept (r : bytes) :
  fst npk_exchange = Return (Some r) ->
  accepts (device_id self) 11 r = true ->
  exists n p k,
    uint16_be (data_field r) 0 = Some n /\
    uint16_be (data_field r) 2 = Some p /\
    uint16_be (data_field r) 4 = Some k /\
    read_npk self
    = (Return (<["potassium" := VInt k]> (<["phosphorus" := VInt p]>
                 (<["nitrogen" := VInt n]> npk_unavailable))),
       mkSensor (device_id self) (snd npk_exchange)).
Proof.
  subst npk_exchange. intros Hx Hacc.
  destruct (accepts_header (device_id self) 11 r ltac:(lia) Hacc)
    as (b0 & b1 & b2 & data & -> & Hlen).
  destruct (unpack_at data 0 ltac:(lia)) as (n & Hn & Hun & _).
  destruct (unpack_at data 2 ltac:(lia)) as (p & Hp & Hup & _).
  destruct (unpack_at data 4 ltac:(lia)) as (k & Hk & Huk & _).
  exists n, p, k. repeat (split; [assumption|]).
  unfold read_npk, try_except, bind, on_comm, lift, get, ret.
  destruct (transport_send_and_receive CMD_READ_NPK _ _ _) as [o c']. cbn [fst snd] in *. subst o.
  rewrite response_ok_accepts by lia. cbn [device_id]. rewrite Hacc.
  cbn [slice_of obind].
  change (slice 3 5 (b0 :: b1 :: b2 :: data)) with (firstn 2 (skipn 0 data)).
  change (slice 5 7 (b0 :: b1 :: b2 :: data)) with (firstn 2 (skipn 2 data)).
  change (slice 7 9 (b0 :: b1 :: b2 :: data)) with (firstn 2 (skipn 4 data)).
  rewrite Hun, Hup, Huk. reflexivity.
Qed.

Lemma read_npk_reject :
  (forall r, fst npk_exchange = Return (Some r) -> accepts (device_id self) 11 r = false) ->
  read_npk self = (Return npk_unavailable, mkSensor (device_id self) (snd npk_exchange)).
Proof.
  subst npk_exchange. intros Hrej.
  unfold read_npk, try_except, bind, on_comm, lift, get, ret.
  destruct (transport_send_and_receive CMD_READ_NPK _ _ _) as [[o|e] c']; cbn [fst snd] in *.
  - rewrite response_ok_accepts by lia. cbn [device_id].
    destruct o as [r|]; [rewrite (Hrej r eq_refl)|]; reflexivity.
  - reflexivity.
Qed.

Lemma read_ec_ph_accept (r : bytes) :
  fst ec_ph_exchange = Return (Some r) ->
  accepts (device_id self) 13 r = true ->
  exists ec ph_raw,
    uint16_be (data_field r) 4 = Some ec /\
    uint16_be (data_field r) 6 = Some ph_raw /\
    read_ec_ph self
    = (Return (<["ph" := VFloat (div10 ph_raw)]> (<["ec" := VInt ec]> ec_ph_unavailable)),
       mkSensor (device_id self) (snd ec_ph_exchange)).
Proof.
  subst ec_ph_exchange. intros Hx Hacc.
  destruct (accepts_header (device_id self) 13 r ltac:(lia) Hacc)
    as (b0 & b1 & b2 & data & -> & Hlen).
  destruct (unpack_at data 4 ltac:(lia)) as (ec & Hec & Huec & _).
  destruct (unpack_at data 6 ltac:(lia)) as (ph & Hph & Huph & _).
  exists ec, ph. repeat (split; [assumption|]).
  unfold read_ec_ph, try_except, bind, on_comm, lift, get, ret.
  destruct (transport_send_and_receive CMD_READ_EC_PH _ _ _) as [o c']. cbn [fst snd] in *. subst o.
  rewrite response_ok_accepts by lia. cbn [device_id]. rewrite Hacc.
  cbn [slice_of obind].
  change (slice 7 9 (b0 :: b1 :: b2 :: data)) with (firstn 2 (skipn 4 data)).
  change (slice 9 11 (b0 :: b1 :: b2 :: data)) with (firstn 2 (skipn 6 data)).
  rewrite Huec, Huph. reflexivity.
Qed.

Lemma read_ec_ph_reject :
  (forall r, fst ec_ph_exchange = Return (Some r) -> accepts (device_id self) 13 r = false) ->
  read_ec_ph self = (Return ec_ph_unavailable, mkSensor (device_id self) (snd ec_ph_exchange)).
Proof.
  subst ec_ph_exchange. intros Hrej.
  unfold read_ec_ph, try_except, bind, on_comm, lift, get, ret.
  destruct (transport_send_and_receive CMD_READ_EC_PH _ _ _) as [[o|e] c']; cbn [fst snd] in *.
  - rewrite response_ok_accepts by lia. cbn [device_id].
    destruct o as [r|]; [rewrite (Hrej r eq_refl)|]; reflexivity.
  - reflexivity.
Qed.

End GroupRegisters.

(** The keys of the dictionaries. *)
Lemma npk_keys (n p k : value) :
  dom (<["potassium" := k]> (<["phosphorus" := p]> (<["nitrogen" := n]> npk_unavailable)))
  = ({["nitrogen"; "phosphorus"; "potassium"]} : gset string).
Proof. unfold npk_unavailable. rewrite !dom_insert_L, dom_empty_L. set_solver. Qed.

Lemma npk_unavailable_keys :
  dom npk_unavailable = ({["nitrogen"; "phosphorus"; "potassium"]} : gset string).
Proof. unfold npk_unavailable. rewrite !dom_insert_L, dom_empty_L. set_solver. Qed.

Lemma ec_ph_keys (ec ph : value) :
  dom (<["ph" := ph]> (<["ec" := ec]> ec_ph_unavailable)) = ({["ec"; "ph"]} : gset string).
Proof. unfold ec_ph_unavailable. rewrite !dom_insert_L, dom_empty_L. set_solver. Qed.

Lemma ec_ph_unavailable_keys :
  dom ec_ph_unavailable = ({["ec"; "ph"]} : gset string).
Proof. unfold ec_ph_unavailable. rewrite !dom_insert_L, dom_empty_L. set_solver. Qed.

(** The values under the keys: the later stores win. *)
Lemma npk_values (n p k : value) (key : string) :
  <["potassium" := k]> (<["phosphorus" := p]> (<["nitrogen" := n]> npk_unavailable)) !! key
  = if decide (key = "potassium") then Some k
    else if decide (key = "phosphorus") then Some p
    else if decide (key = "nitrogen") then Some n
    else None.
Proof.
  unfold npk_unavailable.
  repeat (case_decide; [subst; simplify_map_eq; reflexivity|]).
  simplify_map_eq. reflexivity.
Qed.

Lemma ec_ph_values (ec ph : value) (key : string) :
  <["ph" := ph]> (<["ec" := ec]> ec_ph_unavailable) !! key
  = if decide (key = "ph") then Some ph
    else if decide (key = "ec") then Some ec
    else None.
Proof.
  unfold ec_ph_unavailable.
  repeat (case_decide; [subst; simplify_map_eq; reflexivity|]).
  simplify_map_eq. reflexivity.
Qed.


Lemma npk_unavailable_all_none : all_none npk_unavailable.
Proof.
  intros key v Hv. unfold npk_unavailable in Hv.
  rewrite !lookup_insert, lookup_empty in Hv. repeat case_decide; congruence.
Qed.

Lemma ec_ph_unavailable_all_none : all_none ec_ph_unavailable.
Proof.
  intros key v Hv. unfold ec_ph_unavailable in Hv.
  rewrite !lookup_insert, lookup_empty in Hv. repeat case_decide; congruence.
Qed.

Lemma exchange_failed_accepts {C} `{Transport C} (self : TaidacentSoilSensor C)
  (cmd : bytes) (n : nat) :
  exchange_failed self cmd n ->
  forall r, fst (transport_send_and_receive cmd (Some n) None (comm self)) = Return (Some r) ->
            accepts (device_id self) n r = false.
Proof.
  intros Hfail r Hr. destruct (accepts (device_id self) n r) eqn:E; [|reflexivity].
  exfalso. apply (Hfail r Hr). apply accepts_well_formed, E.
Qed.

(** ** The claims about the read methods *)

(** C3. A response whose first byte is not the session's device id, or
    whose second byte is not 3, or that is shorter than 5 + 2 bytes makes
    each of the five single-register methods return [None]: no number,
    no zero, no default. *)
Theorem single_reads_reject_malformed {C} `{Transport C}
  (self : TaidacentSoilSensor C) (r : bytes) :
  rejected (device_id self) (5 + 2) r ->
  (answers self CMD_READ_N 7 r -> fst (read_nitrogen self) = Return None) /\
  (answers self CMD_READ_P 7 r -> fst (read_phosphorus self) = Return None) /\
  (answers self CMD_READ_K 7 r -> fst (read_potassium self) = Return None) /\
  (answers self CMD_READ_EC 7 r -> fst (read_ec self) = Return None) /\
  (answers self CMD_READ_PH 7 r -> fst (read_ph self) = Return None).
Proof.
  intros Hrej. apply rejected_not_accepts in Hrej. cbn [Nat.add] in Hrej.
  rewrite read_nitrogen_single, read_phosphorus_single, read_potassium_single,
    read_ec_single, read_ph_single.
  repeat split; intros Ha; rewrite read_single_reject; try reflexivity;
    intros r' Hr'; unfold answers in Ha; congruence.
Qed.

(** A frame answered by device 2 to a session for device 1. *)
Lemma single_reads_reject_malformed_witness :
  fst (read_nitrogen (bench_sensor [frame_other_device])) = Return None /\
  fst (read_phosphorus (bench_sensor [frame_other_device])) = Return None /\
  fst (read_potassium (bench_sensor [frame_other_device])) = Return None /\
  fst (read_ec (bench_sensor [frame_other_device])) = Return None /\
  fst (read_ph (bench_sensor [frame_other_device])) = Return None.
Proof.
  assert (Hrej : rejected (device_id (bench_sensor [frame_other_device])) (5 + 2)
                           frame_other_device).
  { right; left. exists x02. split; [reflexivity | vm_compute; discriminate]. }
  destruct (single_reads_reject_malformed _ _ Hrej) as (HN & HP & HK & HE & HPH).
  refine (conj (HN _) (conj (HP _) (conj (HK _) (conj (HE _) (HPH _)))));
    vm_compute; reflexivity.
Defined.

(** C4, as stated, fails: [read_nitrogen] accepts a 7-byte response from
    device 1 with function code 3 whose byte count field is 255, not
    2 * 1, and decodes 100 from it. *)
Lemma read_nitrogen_accepts_byte_count_255 :
  answers (bench_sensor [frame_byte_count_255]) CMD_READ_N 7 frame_byte_count_255 /\
  fst (read_nitrogen (bench_sensor [frame_byte_count_255])) = Return (Some 100) /\
  index frame_byte_count_255 2 = Return 255 /\
  255 <> 2 * 1.
Proof.
  split; [vm_compute; reflexivity|].
  split; [vm_compute; reflexivity|].
  split; [vm_compute; reflexivity | lia].
Qed.

(** C4, amended. A response that a read method accepts and decodes is
    well formed: at least 5 + 2 * registerCount bytes long (7 for the
    single registers, 11 for NPK, 13 for EC/pH), with the session's
    device id first and function code 3 second.  Nothing is said about
    the byte count field, which no method looks at. *)
Theorem accepted_responses_are_well_formed {C} `{Transport C}
  (self : TaidacentSoilSensor C) :
  (forall v, fst (read_nitrogen self) = Return (Some v) ->
     exists r, answers self CMD_READ_N 7 r /\ well_formed (device_id self) (5 + 2 * 1) r) /\
  (forall v, fst (read_phosphorus self) = Return (Some v) ->
     exists r, answers self CMD_READ_P 7 r /\ well_formed (device_id self) (5 + 2 * 1) r) /\
  (forall v, fst (read_potassium self) = Return (Some v) ->
     exists r, answers self CMD_READ_K 7 r /\ well_formed (device_id self) (5 + 2 * 1) r) /\
  (forall v, fst (read_ec self) = Return (Some v) ->
     exists r, answers self CMD_READ_EC 7 r /\ well_formed (device_id self) (5 + 2 * 1) r) /\
  (forall v, fst (read_ph self) = Return (Some v) ->
     exists r, answers self CMD_READ_PH 7 r /\ well_formed (device_id self) (5 + 2 * 1) r) /\
  (forall d, fst (read_npk self) = Return d -> ~ all_none d ->
     exists r, answers self CMD_READ_NPK 11 r /\ well_formed (device_id self) (5 + 2 * 3) r) /\
  (forall d, fst (read_ec_ph self) = Return d -> ~ all_none d ->
     exists r, answers self CMD_READ_EC_PH 13 r /\ well_formed (device_id self) (5 + 2 * 4) r).
Proof.
  rewrite read_nitrogen_single, read_phosphorus_single, read_potassium_single,
    read_ec_single, read_ph_single.
  repeat split.
  1-5: intros v Hv; apply read_single_some_inv in Hv;
       destruct Hv as (r & raw & Hr & Hwf & _); exists r; split; assumption.
  - intros d Hd Hsome.
    destruct (fst (transport_send_and_receive CMD_READ_NPK (Some 11%nat) None (comm self)))
      as [[r|]|e] eqn:Hx;
      [destruct (accepts (device_id self) 11 r) eqn:Hacc;
       [exists r; split; [exact Hx | apply accepts_well_formed, Hacc]|]|..];
      (rewrite read_npk_reject in Hd by (intros r' Hr'; congruence));
      cbn [fst] in Hd; injection Hd as <-;
      destruct (Hsome npk_unavailable_all_none).
  - intros d Hd Hsome.
    destruct (fst (transport_send_and_receive CMD_READ_EC_PH (Some 13%nat) None (comm self)))
      as [[r|]|e] eqn:Hx;
      [destruct (accepts (device_id self) 13 r) eqn:Hacc;
       [exists r; split; [exact Hx | apply accepts_well_formed, Hacc]|]|..];
      (rewrite read_ec_ph_reject in Hd by (intros r' Hr'; congruence));
      cbn [fst] in Hd; injection Hd as <-;
      destruct (Hsome ec_ph_unavailable_all_none).
Qed.

(** The frame with register value 100, accepted by [read_nitrogen]. *)
Lemma accepted_responses_are_well_formed_witness :
  exists r, answers (bench_sensor [frame_100]) CMD_READ_N 7 r /\ well_formed 1 7 r.
Proof.
  apply (proj1 (accepted_responses_are_well_formed (bench_sensor [frame_100])) 100).
  vm_compute; reflexivity.
Defined.

(** C6. On an accepted NPK response nitrogen, phosphorus and potassium
    are the big-endian 16-bit values at offsets 0, 2 and 4 of the data
    field.  On an accepted EC/pH response EC is the one at offset 4 and
    pH the one at offset 6 divided by 10; the humidity and temperature
    fields at offsets 0 and 2 are passed over. *)
Theorem group_reads_decode_by_offset {C} `{Transport C} (self : TaidacentSoilSensor C) :
  (forall r, answers self CMD_READ_NPK 11 r -> well_formed (device_id self) 11 r ->
     exists n p k d,
       uint16_be (data_field r) 0 = Some n /\
       uint16_be (data_field r) 2 = Some p /\
       uint16_be (data_field r) 4 = Some k /\
       fst (read_npk self) = Return d /\
       d !! "nitrogen" = Some (VInt n) /\
       d !! "phosphorus" = Some (VInt p) /\
       d !! "potassium" = Some (VInt k)) /\
  (forall r, answers self CMD_READ_EC_PH 13 r -> well_formed (device_id self) 13 r ->
     exists ec ph_raw d,
       uint16_be (data_field r) 4 = Some ec /\
       uint16_be (data_field r) 6 = Some ph_raw /\
       fst (read_ec_ph self) = Return d /\
       d !! "ec" = Some (VInt ec) /\
       d !! "ph" = Some (VFloat (PrimFloat.div (float_of_int ph_raw) 10))).
Proof.
  split; intros r Ha Hwf.
  - apply accepts_well_formed in Hwf.
    destruct (read_npk_accept self r Ha Hwf) as (n & p & k & Hn & Hp & Hk & Hrun).
    eexists n, p, k, _. rewrite Hrun. cbn [fst].
    repeat (split; [first [assumption | reflexivity]|]).
    rewrite !npk_values. repeat split.
  - apply accepts_well_formed in Hwf.
    destruct (read_ec_ph_accept self r Ha Hwf) as (ec & ph & Hec & Hph & Hrun).
    eexists ec, ph, _. rewrite Hrun. cbn [fst].
    repeat (split; [first [assumption | reflexivity]|]).
    rewrite !ec_ph_values. split; reflexivity.
Qed.

(** N = 10, P = 20, K = 30; humidity and temperature passed over,
    EC = 1000, pH = 6.8. *)
Lemma group_reads_decode_by_offset_witness :
  (exists d, fst (read_npk (bench_sensor [frame_npk])) = Return d /\
             d !! "nitrogen" = Some (VInt 10) /\
             d !! "phosphorus" = Some (VInt 20) /\
             d !! "potassium" = Some (VInt 30)) /\
  (exists d, fst (read_ec_ph (bench_sensor [frame_ec_ph])) = Return d /\
             d !! "ec" = Some (VInt 1000) /\
             d !! "ph" = Some (VFloat 6.8)).
Proof.
  split.
  - destruct (proj1 (group_reads_decode_by_offset (bench_sensor [frame_npk])) frame_npk)
      as (n & p & k & d & Hn & Hp & Hk & Hd & Dn & Dp & Dk).
    + vm_compute; reflexivity.
    + split; [vm_compute; lia | split; vm_compute; reflexivity].
    + exists d. vm_compute in Hn, Hp, Hk.
      injection Hn as <-. injection Hp as <-. injection Hk as <-. auto.
  - destruct (proj2 (group_reads_decode_by_offset (bench_sensor [frame_ec_ph])) frame_ec_ph)
      as (ec & ph & d & Hec & Hph & Hd & Dec & Dph).
    + vm_compute; reflexivity.
    + split; [vm_compute; lia | split; vm_compute; reflexivity].
    + exists d. vm_compute in Hec, Hph.
      injection Hec as <-. injection Hph as <-. auto.
Defined.

(** ** pH scaling *)

Lemma div10_nearest_below_spec (k : nat) (n : Z) :
  div10_nearest_below k n = true ->
  forall raw, n - Z.of_nat k <= raw < n -> nearest_tenth raw (div10 raw) = true.
Proof.
  revert n. induction k as [|k IH]; intros n Hall raw Hraw.
  - lia.
  - cbn [div10_nearest_below] in Hall. apply andb_true_iff in Hall.
    destruct Hall as [Hhere Hrest].
    destruct (Z.eq_dec raw (n - 1)) as [->|Hne]; [exact Hhere|].
    apply (IH (n - 1) Hrest). lia.
Qed.

(** Over the whole range of a 16-bit register, [x / 10.0] is the binary64
    number nearest to the tenth of the register value. *)
Lemma div10_nearest (raw : Z) :
  0 <= raw < 65536 -> nearest_tenth raw (div10 raw) = true.
Proof.
  intros Hraw. apply (div10_nearest_below_spec (Z.to_nat 65536) 65536).
  - vm_compute. reflexivity.
  - lia.
Qed.

(** C7. On an accepted pH response [read_ph] returns the big-endian
    16-bit register value divided by 10, as a binary64 number: register
    value 250 gives 25.0 and register value 68 gives 6.8. *)
Theorem read_ph_divides_by_ten {C} `{Transport C}
  (self : TaidacentSoilSensor C) (r : bytes) :
  answers self CMD_READ_PH 7 r -> well_formed (device_id self) 7 r ->
  exists raw,
    uint16_be (data_field r) 0 = Some raw /\
    fst (read_ph self) = Return (Some (PrimFloat.div (float_of_int raw) 10)) /\
    nearest_tenth raw (PrimFloat.div (float_of_int raw) 10) = true /\
    (raw = 250 -> fst (read_ph self) = Return (Some 25%float)) /\
    (raw = 68 -> fst (read_ph self) = Return (Some 6.8%float)).
Proof.
  intros Ha Hwf. apply accepts_well_formed in Hwf.
  rewrite read_ph_single.
  destruct (read_single_accept CMD_READ_PH div10 self r Ha Hwf) as (raw & Hraw & Hrun).
  destruct (accepts_header (device_id self) 7 r ltac:(lia) Hwf)
    as (b0 & b1 & b2 & data & -> & Hlen).
  destruct (unpack_at data 0 ltac:(lia)) as (raw' & Hraw' & _ & Hrange).
  change (data_field (b0 :: b1 :: b2 :: data)) with data in Hraw.
  assert (raw' = raw) as -> by congruence.
  exists raw. rewrite Hrun. cbn [fst].
  split; [exact Hraw|].
  split; [reflexivity|].
  split; [apply div10_nearest, Hrange|].
  split; intros ->; reflexivity.
Qed.

(** The two register values of the specification. *)
Lemma read_ph_divides_by_ten_witness :
  fst (read_ph (bench_sensor [frame_250])) = Return (Some 25%float) /\
  fst (read_ph (bench_sensor [frame_68])) = Return (Some 6.8%float).
Proof.
  split.
  - destruct (read_ph_divides_by_ten (bench_sensor [frame_250]) frame_250)
      as (raw & Hraw & _ & _ & H250 & _).
    + vm_compute; reflexivity.
    + split; [vm_compute; lia | split; vm_compute; reflexivity].
    + apply H250. vm_compute in Hraw. congruence.
  - destruct (read_ph_divides_by_ten (bench_sensor [frame_68]) frame_68)
      as (raw & Hraw & _ & _ & _ & H68).
    + vm_compute; reflexivity.
    + split; [vm_compute; lia | split; vm_compute; reflexivity].
    + apply H68. vm_compute in Hraw. congruence.
Defined.

(** ** Responses with a wrong CRC *)

(** C8. A response that is long enough, starts with the session's device
    id and has function code 3 is decoded by every read method although
    its two trailing bytes are not the CRC-16 of the bytes before them:
    the response CRC plays no part in the decision.  Each value returned
    is the big-endian 16-bit number at its offset in the data field
    (pH a tenth of it). *)
Theorem reads_decode_despite_crc_mismatch {C} `{Transport C}
  (self : TaidacentSoilSensor C) (r : bytes) :
  crc_matches r = false ->
  (well_formed (device_id self) 7 r ->
   exists v, uint16_be (data_field r) 0 = Some v /\
     (answers self CMD_READ_N 7 r -> fst (read_nitrogen self) = Return (Some v)) /\
     (answers self CMD_READ_P 7 r -> fst (read_phosphorus self) = Return (Some v)) /\
     (answers self CMD_READ_K 7 r -> fst (read_potassium self) = Return (Some v)) /\
     (answers self CMD_READ_EC 7 r -> fst (read_ec self) = Return (Some v)) /\
     (answers self CMD_READ_PH 7 r ->
      fst (read_ph self) = Return (Some (PrimFloat.div (float_of_int v) 10)))) /\
  (well_formed (device_id self) 11 r -> answers self CMD_READ_NPK 11 r ->
   exists n p k d,
     uint16_be (data_field r) 0 = Some n /\
     uint16_be (data_field r) 2 = Some p /\
     uint16_be (data_field r) 4 = Some k /\
     fst (read_npk self) = Return d /\
     d !! "nitrogen" = Some (VInt n) /\ d !! "phosphorus" = Some (VInt p) /\
     d !! "potassium" = Some (VInt k)) /\
  (well_formed (device_id self) 13 r -> answers self CMD_READ_EC_PH 13 r ->
   exists ec ph_raw d,
     uint16_be (data_field r) 4 = Some ec /\
     uint16_be (data_field r) 6 = Some ph_raw /\
     fst (read_ec_ph self) = Return d /\
     d !! "ec" = Some (VInt ec) /\
     d !! "ph" = Some (VFloat (PrimFloat.div (float_of_int ph_raw) 10))).
Proof.
  intros _. split; [|split].
  - intros Hwf. apply accepts_well_formed in Hwf.
    destruct (accepts_header (device_id self) 7 r ltac:(lia) Hwf)
      as (b0 & b1 & b2 & data & Er & Hlen).
    destruct (unpack_at data 0 ltac:(lia)) as (v & Hv & _ & _).
    exists v. split; [rewrite Er; exact Hv|].
    rewrite read_nitrogen_single, read_phosphorus_single, read_potassium_single,
      read_ec_single, read_ph_single.
    assert (Hsame : forall v', uint16_be (data_field r) 0 = Some v' -> v' = v).
    { intros v' Hv'. rewrite Er in Hv'.
      change (data_field (b0 :: b1 :: b2 :: data)) with data in Hv'. congruence. }
    repeat split; intros Ha.
    1-4: destruct (read_single_accept _ (fun x : Z => x) self r Ha Hwf) as (v' & Hv' & ->);
         rewrite (Hsame v' Hv'); reflexivity.
    destruct (read_single_accept _ div10 self r Ha Hwf) as (v' & Hv' & ->).
    rewrite (Hsame v' Hv'). reflexivity.
  - intros Hwf Ha. apply accepts_well_formed in Hwf.
    destruct (read_npk_accept self r Ha Hwf) as (n & p & k & Hn & Hp & Hk & Hrun).
    eexists n, p, k, _. rewrite Hrun. cbn [fst].
    split; [exact Hn|]. split; [exact Hp|]. split; [exact Hk|].
    split; [reflexivity|]. rewrite !npk_values. repeat split.
  - intros Hwf Ha. apply accepts_well_formed in Hwf.
    destruct (read_ec_ph_accept self r Ha Hwf) as (ec & ph & Hec & Hph & Hrun).
    eexists ec, ph, _. rewrite Hrun. cbn [fst].
    split; [exact Hec|]. split; [exact Hph|].
    split; [reflexivity|]. rewrite !ec_ph_values. split; reflexivity.
Qed.

(** Register value 100 followed by two zero bytes instead of B9 AF. *)
Lemma reads_decode_despite_crc_mismatch_witness :
  crc_matches frame_bad_crc = false /\
  fst (read_nitrogen (bench_sensor [frame_bad_crc])) = Return (Some 100) /\
  fst (read_ec (bench_sensor [frame_bad_crc])) = Return (Some 100).
Proof.
  assert (Hcrc : crc_matches frame_bad_crc = false) by (vm_compute; reflexivity).
  split; [exact Hcrc|].
  destruct (proj1 (reads_decode_despite_crc_mismatch (bench_sensor [frame_bad_crc])
                     frame_bad_crc Hcrc))
    as (v & Hv & HN & _ & _ & HE & _).
  - split; [vm_compute; lia | split; vm_compute; reflexivity].
  - vm_compute in Hv. injection Hv as <-.
    split; [apply HN | apply HE]; vm_compute; reflexivity.
Defined.

(** ** Shape of the group results *)

(** C10. Whatever the transport returns or raises, [read_npk] returns a
    dictionary with exactly the keys nitrogen, phosphorus and potassium,
    and [read_ec_ph] one with exactly the keys ec and ph; neither raises.
    When the exchange failed every value is [None]; otherwise every field
    is decoded: no result is partly filled. *)
Theorem group_reads_total_and_uniform {C} `{Transport C} (self : TaidacentSoilSensor C) :
  (exists d, fst (read_npk self) = Return d /\
     dom d = ({["nitrogen"; "phosphorus"; "potassium"]} : gset string) /\
     (exchange_failed self CMD_READ_NPK 11 -> all_none d) /\
     (all_none d \/
      exists n p k, d !! "nitrogen" = Some (VInt n) /\ d !! "phosphorus" = Some (VInt p) /\
                    d !! "potassium" = Some (VInt k))) /\
  (exists d, fst (read_ec_ph self) = Return d /\
     dom d = ({["ec"; "ph"]} : gset string) /\
     (exchange_failed self CMD_READ_EC_PH 13 -> all_none d) /\
     (all_none d \/
      exists ec ph, d !! "ec" = Some (VInt ec) /\ d !! "ph" = Some (VFloat ph))).
Proof.
  split.
  - destruct (fst (transport_send_and_receive CMD_READ_NPK (Some 11%nat) None (comm self)))
      as [[r|]|e] eqn:Hx;
      [destruct (accepts (device_id self) 11 r) eqn:Hacc|..].
    + destruct (read_npk_accept self r Hx Hacc) as (n & p & k & _ & _ & _ & ->).
      eexists. split; [reflexivity|]. split; [apply npk_keys|]. split.
      * intros Hfail. apply (exchange_failed_accepts _ _ _ Hfail) in Hx. congruence.
      * right. exists n, p, k. rewrite !npk_values. repeat split.
    + rewrite read_npk_reject by (intros r' Hr'; congruence).
      eexists. split; [reflexivity|]. split; [apply npk_unavailable_keys|].
      split; [intros _|left]; apply npk_unavailable_all_none.
    + rewrite read_npk_reject by (intros r' Hr'; congruence).
      eexists. split; [reflexivity|]. split; [apply npk_unavailable_keys|].
      split; [intros _|left]; apply npk_unavailable_all_none.
    + rewrite read_npk_reject by (intros r' Hr'; congruence).
      eexists. split; [reflexivity|]. split; [apply npk_unavailable_keys|].
      split; [intros _|left]; apply npk_unavailable_all_none.
  - destruct (fst (transport_send_and_receive CMD_READ_EC_PH (Some 13%nat) None (comm self)))
      as [[r|]|e] eqn:Hx;
      [destruct (accepts (device_id self) 13 r) eqn:Hacc|..].
    + destruct (read_ec_ph_accept self r Hx Hacc) as (ec & ph & _ & _ & ->).
      eexists. split; [reflexivity|]. split; [apply ec_ph_keys|]. split.
      * intros Hfail. apply (exchange_failed_accepts _ _ _ Hfail) in Hx. congruence.
      * right. eexists ec, _. rewrite !ec_ph_values. split; reflexivity.
    + rewrite read_ec_ph_reject by (intros r' Hr'; congruence).
      eexists. split; [reflexivity|]. split; [apply ec_ph_unavailable_keys|].
      split; [intros _|left]; apply ec_ph_unavailable_all_none.
    + rewrite read_ec_ph_reject by (intros r' Hr'; congruence).
      eexists. split; [reflexivity|]. split; [apply ec_ph_unavailable_keys|].
      split; [intros _|left]; apply ec_ph_unavailable_all_none.
    + rewrite read_ec_ph_reject by (intros r' Hr'; congruence).
      eexists. split; [reflexivity|]. split; [apply ec_ph_unavailable_keys|].
      split; [intros _|left]; apply ec_ph_unavailable_all_none.
Qed.

(** A transport that raises on every exchange. *)
Lemma group_reads_total_and_uniform_witness :
  (exists d, fst (read_npk (mkSensor 1 (mkMock (Raise SerialException)))) = Return d /\
             all_none d) /\
  (exists d, fst (read_ec_ph (mkSensor 1 (mkMock (Raise SerialException)))) = Return d /\
             all_none d).
Proof.
  destruct (group_reads_total_and_uniform (mkSensor 1 (mkMock (Raise SerialException))))
    as ((d1 & Hd1 & _ & Hfail1 & _) & (d2 & Hd2 & _ & Hfail2 & _)).
  split; [exists d1 | exists d2]; (split; [assumption|]).
  - apply Hfail1. intros r Hr. vm_compute in Hr. discriminate.
  - apply Hfail2. intros r Hr. vm_compute in Hr. discriminate.
Defined.

(** ** The transport session *)

Lemma preserves_ret {S A} (P : S -> Prop) (a : A) : preserves P (ret a).
Proof. intros s Hs. exact Hs. Qed.

Lemma preserves_get {S} (P : S -> Prop) : preserves P (@get S).
Proof. intros s Hs. exact Hs. Qed.

Lemma preserves_bind {S A B} (P : S -> Prop) (m : M S A) (k : A -> M S B) :
  preserves P m -> (forall a, preserves P (k a)) -> preserves P (bind m k).
Proof.
  intros Hm Hk s Hs. unfold bind. specialize (Hm s Hs).
  destruct (m s) as [[a|e] s']; cbn [snd] in *; [apply Hk, Hm | exact Hm].
Qed.

Lemma preserves_try_except {S A} (P : S -> Prop) (m : M S A) (h : exn -> M S A) :
  preserves P m -> (forall e, preserves P (h e)) -> preserves P (try_except m h).
Proof.
  intros Hm Hh s Hs. unfold try_except. specialize (Hm s Hs).
  destruct (m s) as [[a|e] s']; cbn [snd] in *; [exact Hm | apply Hh, Hm].
Qed.

(** A call on the port that leaves it open or closed as it was keeps the
    object consistent. *)
Lemma on_serial_consistent {A} (op : M Serial A) :
  (forall s, is_open (snd (op s)) = is_open s) -> preserves consistent (on_serial op).
Proof.
  intros Hop c Hc. unfold on_serial.
  destruct (serial_conn c) as [s|] eqn:Es; [|exact Hc].
  specialize (Hop s). destruct (op s) as [r s']. cbn [snd] in *.
  intros Hconn. cbn in Hconn.
  destruct (Hc Hconn) as (s0 & E0 & Hopen). exists s'. cbn.
  split; [reflexivity|]. congruence.
Qed.

Lemma elapse_is_open (s : Serial) : is_open (elapse s) = is_open s.
Proof. unfold elapse. destruct (line s); reflexivity. Qed.

Lemma write_is_open (data : bytes) (s : Serial) :
  is_open (snd (write data s)) = is_open s.
Proof.
  unfold write. destruct (is_open s) eqn:E, (write_fault s); cbn; first [assumption | reflexivity].
Qed.

Lemma read_is_open (size : nat) (s : Serial) :
  is_open (snd (read size s)) = is_open s.
Proof.
  unfold read. destruct (is_open s) eqn:E, (read_fault s); cbn [negb snd]; try assumption.
  change (is_open (if (length (in_waiting s) <? size)%nat then elapse s else s) = true).
  destruct (length (in_waiting s) <? size)%nat; [rewrite elapse_is_open|]; assumption.
Qed.

Lemma read_all_is_open (s : Serial) : is_open (snd (PySerial.read_all s)) = is_open s.
Proof.
  unfold PySerial.read_all. destruct (is_open s) eqn:E, (read_fault s); cbn; first [assumption | reflexivity].
Qed.

Lemma assign_timeout_is_open (t : option float) (s : Serial) :
  is_open (snd (assign_timeout t s)) = is_open s.
Proof. unfold assign_timeout. destruct (timeout_accepted t); reflexivity. Qed.

Lemma sleep_consistent : preserves consistent sleep.
Proof.
  intros c Hc Hconn. cbn in *. destruct (Hc Hconn) as (s & -> & Hopen).
  exists (elapse s). split; [reflexivity|]. rewrite elapse_is_open. exact Hopen.
Qed.

Lemma connect_consistent (env : Env) : preserves consistent (connect env).
Proof.
  intros c Hc. unfold connect, try_except, bind, get, put, lift, ret.
  destruct (port_truthy (port c)); cbn; [|exact Hc].
  destruct (pyserial_installed env); cbn; [|exact Hc].
  destruct (Serial_new env _ _ _) as [conn|e]; cbn.
  - destruct (is_open conn) eqn:Hopen; cbn; intros Hconn; cbn in Hconn.
    + exists conn. cbn. auto.
    + discriminate.
  - intros Hconn. cbn in Hconn. discriminate.
Qed.

Lemma detect_port_consistent (env : Env) : preserves consistent (detect_port env).
Proof.
  unfold detect_port. apply preserves_try_except; [|intros e; apply preserves_ret].
  destruct (pyserial_installed env); [|apply preserves_ret].
  intros c Hc. unfold bind, lift, get.
  destruct (comports env) as [[|d ds]|e]; try exact Hc.
  cbn [negb snd].
  match goal with |- context [if String.eqb ?a ?b then ?x else ?y] =>
    destruct (if String.eqb a b then x else y) as [hit|] end; cbn.
  - assert (Hc' : consistent (set_port (Some hit) c)) by exact Hc.
    destruct hit as [|a hit']; [exact Hc'|].
    pose proof (connect_consistent env _ Hc') as Hk.
    destruct (connect env _) as [[b|e] c']; exact Hk.
  - destruct (port_truthy (port c)); [|exact Hc].
    pose proof (connect_consistent env c Hc) as Hk.
    destruct (connect env c) as [[b|e] c']; exact Hk.
Qed.

Lemma disconnect_consistent : preserves consistent disconnect.
Proof.
  intros c Hc. unfold disconnect, bind, get, put, ret. cbn.
  destruct (serial_conn c) as [s|]; [|exact Hc].
  destruct (is_open s); [|exact Hc].
  cbn. intros Hconn. cbn in Hconn. discriminate.
Qed.

Lemma send_command_consistent (command : bytes) :
  preserves consistent (send_command command).
Proof.
  unfold send_command. apply preserves_bind; [apply preserves_get|]. intros self.
  destruct (_ || _); [apply preserves_ret|].
  apply preserves_try_except; [|intros e; apply preserves_ret].
  apply preserves_bind; [|intros n; apply preserves_ret].
  apply on_serial_consistent, write_is_open.
Qed.

Lemma read_response_consistent (size : option nat) (timeout : option float) :
  preserves consistent (read_response size timeout).
Proof.
  unfold read_response. apply preserves_bind; [apply preserves_get|]. intros self.
  destruct (_ || _); [apply preserves_ret|].
  apply preserves_try_except; [|intros e; apply preserves_ret].
  apply preserves_bind.
  { destruct timeout as [t|]; [|apply preserves_ret].
    apply preserves_bind; [apply on_serial_consistent; reflexivity|]. intros original.
    apply preserves_bind; [apply on_serial_consistent, assign_timeout_is_open|]. intros _.
    apply preserves_ret. }
  intros original. apply preserves_bind.
  { destruct size as [n|].
    - apply on_serial_consistent, read_is_open.
    - apply preserves_bind; [apply on_serial_consistent, read_all_is_open|].
      intros [|b response]; [|apply preserves_ret].
      apply preserves_bind; [apply sleep_consistent|]. intros _.
      apply on_serial_consistent, read_all_is_open. }
  intros response. apply preserves_bind; [|intros _; apply preserves_ret].
  destruct original as [t|]; [|apply preserves_ret].
  apply on_serial_consistent, assign_timeout_is_open.
Qed.

Lemma send_and_receive_consistent (command : bytes) (size : option nat)
  (timeout : option float) :
  preserves consistent (send_and_receive command size timeout).
Proof.
  unfold send_and_receive. apply preserves_bind; [apply send_command_consistent|].
  intros [|]; [|apply preserves_ret].
  apply preserves_bind; [apply sleep_consistent|]. intros _.
  apply read_response_consistent.
Qed.

(** Every object a program can hold is consistent. *)
Lemma reachable_consistent (c : RS485Communication) : reachable c -> consistent c.
Proof.
  induction 1 as [env sys p b t | | | | | | ].
  - assert (Hblank : consistent (mkRS485 p b t None sys false))
      by (intros Hconn; discriminate).
    unfold RS485.init. destruct p; [apply connect_consistent | apply detect_port_consistent];
      exact Hblank.
  - apply connect_consistent; assumption.
  - apply detect_port_consistent; assumption.
  - apply disconnect_consistent; assumption.
  - apply send_command_consistent; assumption.
  - apply read_response_consistent; assumption.
  - apply send_and_receive_consistent; assumption.
Qed.

Lemma elapse_in_waiting_length (s : Serial) :
  (length (in_waiting s) <= length (in_waiting (elapse s)))%nat.
Proof.
  unfold elapse. destruct (line s) as [|chunk rest]; cbn [in_waiting]; [lia|].
  rewrite length_app. lia.
Qed.

(** A read that asks for more than arrives before its timeout returns
    what did arrive. *)
Lemma read_short (size : nat) (s : Serial) :
  is_open s = true -> read_fault s = false ->
  (length (in_waiting (elapse s)) < size)%nat ->
  fst (read size s) = Return (in_waiting (elapse s)).
Proof.
  intros Hopen Hfault Hshort. unfold read. rewrite Hopen, Hfault. cbn [negb fst].
  pose proof (elapse_in_waiting_length s) as Hmono.
  destruct (Nat.ltb_spec (length (in_waiting s)) size) as [_|Hge]; [|lia].
  rewrite firstn_all2 by lia. reflexivity.
Qed.

Lemma send_command_writes (c : RS485Communication) (s : Serial) (command : bytes) :
  serial_conn c = Some s -> RS485.is_connected c = true ->
  is_open s = true -> write_fault s = false ->
  send_command command c = (Return true, set_serial_conn (Some (after_write command s)) c).
Proof.
  intros Hs Hconn Hopen Hwf.
  unfold send_command, try_except, bind, on_serial, get, ret, write, after_write.
  rewrite Hconn, Hs. cbn [negb orb conn_truthy].
  rewrite Hs, Hopen, Hwf. reflexivity.
Qed.

Lemma read_set_timeout (size : nat) (t : option float) (s : Serial) :
  fst (read size (set_timeout t s)) = fst (read size s).
Proof.
  destruct s as [o st iw ln snt wf rf].
  unfold read, set_timeout, elapse.
  cbn [is_open PySerial.timeout in_waiting line sent write_fault read_fault].
  destruct o, rf; cbn [negb fst]; try reflexivity.
  destruct (length iw <? size)%nat; [|reflexivity].
  destruct ln; reflexivity.
Qed.

(** A sized read on a connected object, with timeouts the port takes:
    the bytes of [Serial.read], or [None] when it raises. *)
Lemma read_response_sized (c : RS485Communication) (s : Serial) (size : nat)
  (t : option float) :
  serial_conn c = Some s -> RS485.is_connected c = true ->
  timeouts_accepted t s ->
  fst (read_response (Some size) t c)
  = match fst (read size s) with
    | Return r => Return (Some r)
    | Raise _ => Return None
    end.
Proof.
  intros Hs Hconn Hacc.
  unfold read_response, try_except, bind, on_serial, get, put, ret.
  rewrite Hconn, Hs. cbn [negb orb conn_truthy].
  destruct t as [t|].
  - destruct Hacc as [Ht H0].
    rewrite Hs. cbn [set_serial_conn serial_conn].
    unfold assign_timeout at 1. rewrite Ht. cbn [set_serial_conn serial_conn].
    rewrite <- (read_set_timeout size (Some t) s).
    destruct (read size (set_timeout (Some t) s)) as [[r|e] s2]; cbn [fst]; [|reflexivity].
    destruct (PySerial.timeout s) as [t0|]; [|reflexivity].
    cbn [set_serial_conn serial_conn]. unfold assign_timeout. rewrite H0. reflexivity.
  - rewrite Hs. destruct (read size s) as [[r|e] s2]; reflexivity.
Qed.

Lemma elapse_timeout (s : Serial) : PySerial.timeout (elapse s) = PySerial.timeout s.
Proof. unfold elapse. destruct (line s); reflexivity. Qed.

Lemma arrived_after_write (command : bytes) (s : Serial) :
  in_waiting (elapse (elapse (after_write command s))) = arrived s.
Proof.
  destruct s as [o st iw ln snt wf rf].
  unfold arrived, after_write, elapse.
  destruct ln as [|c1 [|c2 rest]]; reflexivity.
Qed.

(** The exchange on an open, fault-free port, when too little arrives. *)
Lemma send_and_receive_short (c : RS485Communication) (s : Serial)
  (command : bytes) (size : nat) (t : option float) :
  serial_conn c = Some s -> RS485.is_connected c = true ->
  is_open s = true -> write_fault s = false -> read_fault s = false ->
  timeouts_accepted t s ->
  (length (arrived s) < size)%nat ->
  fst (send_and_receive command (Some size) t c) = Return (Some (arrived s)).
Proof.
  intros Hs Hconn Hopen Hwf Hrf Hacc Hshort.
  unfold send_and_receive, bind.
  rewrite (send_command_writes c s command Hs Hconn Hopen Hwf).
  unfold sleep. cbn [serial_conn set_serial_conn option_map].
  set (s1 := elapse (after_write command s)).
  assert (Hacc1 : timeouts_accepted t s1).
  { subst s1. destruct t as [x|]; [|exact I].
    unfold timeouts_accepted in *. rewrite elapse_timeout. exact Hacc. }
  rewrite (read_response_sized
             (set_serial_conn (Some s1) (set_serial_conn (Some (after_write command s)) c))
             s1 size t eq_refl Hconn Hacc1).
  rewrite read_short.
  - subst s1. rewrite arrived_after_write. reflexivity.
  - subst s1. rewrite elapse_is_open. exact Hopen.
  - subst s1. destruct s as [o st iw ln snt wf rf].
    unfold elapse, after_write. destruct ln; exact Hrf.
  - subst s1. rewrite arrived_after_write. exact Hshort.
Qed.

Lemma accepts_short (id : Z) (n : nat) (r : bytes) :
  (length r < n)%nat -> accepts id n r = false.
Proof. intros Hlen. apply rejected_not_accepts. left. exact Hlen. Qed.

(** C5, as stated, fails: three bytes arrive where seven are expected,
    and [send_and_receive] returns those three bytes as its result, not a
    failure. *)
Lemma send_and_receive_returns_truncated_bytes :
  arrived (bench_port [frame_cut] 1) = frame_cut /\
  (length frame_cut < 7)%nat /\
  fst (send_and_receive CMD_READ_N (Some 7%nat) None (comm (bench_sensor [frame_cut])))
  = Return (Some frame_cut).
Proof.
  split; [reflexivity|]. split; [cbn; lia | vm_compute; reflexivity].
Qed.

(** C5, amended. On a connected session whose port raises nothing, with
    no per-call timeout or with one the port takes (not below zero, as
    the timeout the port holds), when fewer bytes than expected arrive
    before the read gives up, [send_and_receive] returns exactly the
    bytes that arrived, a truncated or empty byte string; it has no
    timeout failure of its own.  The short response becomes a failure one
    level up: the read methods of the sensor, which pass no per-call
    timeout, turn it into [None], or into the dictionary of [None]s. *)
Theorem short_read_is_returned_then_rejected (c : RS485Communication) (s : Serial)
  (command : bytes) (size : nat) (t : option float) :
  serial_conn c = Some s -> RS485.is_connected c = true ->
  is_open s = true -> write_fault s = false -> read_fault s = false ->
  timeouts_accepted t s ->
  (length (arrived s) < size)%nat ->
  fst (send_and_receive command (Some size) t c) = Return (Some (arrived s)) /\
  (forall device_id,
     ((size <= 7)%nat ->
      fst (read_nitrogen (mkSensor device_id c)) = Return None /\
      fst (read_phosphorus (mkSensor device_id c)) = Return None /\
      fst (read_potassium (mkSensor device_id c)) = Return None /\
      fst (read_ec (mkSensor device_id c)) = Return None /\
      fst (read_ph (mkSensor device_id c)) = Return None) /\
     ((size <= 11)%nat -> fst (read_npk (mkSensor device_id c)) = Return npk_unavailable) /\
     ((size <= 13)%nat -> fst (read_ec_ph (mkSensor device_id c)) = Return ec_ph_unavailable)).
Proof.
  intros Hs Hconn Hopen Hwf Hrf Hacc Hshort.
  split; [apply send_and_receive_short; assumption|].
  intros device_id.
  assert (Hex : forall cmd n, (size <= n)%nat ->
            forall r, fst (transport_send_and_receive cmd (Some n) None
                             (comm (mkSensor device_id c))) = Return (Some r) ->
                      accepts device_id n r = false).
  { intros cmd n Hn r Hr. cbn [transport_send_and_receive RS485_Transport comm] in Hr.
    rewrite (send_and_receive_short c s cmd n None) in Hr by (assumption || exact I || lia).
    injection Hr as <-. apply accepts_short. lia. }
  split; [|split]; intros Hsize.
  - rewrite read_nitrogen_single, read_phosphorus_single, read_potassium_single,
      read_ec_single, read_ph_single.
    repeat split; rewrite read_single_reject; try reflexivity; apply Hex, Hsize.
  - rewrite read_npk_reject; [reflexivity | apply Hex, Hsize].
  - rewrite read_ec_ph_reject; [reflexivity | apply Hex, Hsize].
Qed.

(** Three of the seven bytes arrive, on a read with a per-call timeout of
    half a second. *)
Lemma short_read_is_returned_then_rejected_witness :
  fst (send_and_receive CMD_READ_N (Some 7%nat) (Some 0.5%float)
         (comm (bench_sensor [frame_cut])))
  = Return (Some frame_cut) /\
  fst (read_nitrogen (bench_sensor [frame_cut])) = Return None.
Proof.
  assert (Hshort : (length (arrived (bench_port [frame_cut] 1)) < 7)%nat) by (cbn; lia).
  assert (Hacc : timeouts_accepted (Some 0.5%float) (bench_port [frame_cut] 1))
    by (split; vm_compute; reflexivity).
  destruct (short_read_is_returned_then_rejected
              (comm (bench_sensor [frame_cut])) (bench_port [frame_cut] 1)
              CMD_READ_N 7 (Some 0.5%float) eq_refl eq_refl eq_refl eq_refl eq_refl
              Hacc Hshort)
    as (Hbytes & Hreads).
  split; [exact Hbytes|].
  exact (proj1 (proj1 (Hreads 1) (Nat.le_refl 7))).
Defined.

(** ** Closing *)

(** C9. [disconnect] never raises and leaves [is_connected] false, on a
    session that is open as on one that never was; a second call, and
    every one after it, changes nothing.  The same holds of [close] on
    the sensor. *)
Theorem disconnect_is_idempotent (c : RS485Communication) :
  reachable c ->
  (fst (disconnect c) = Return tt /\
   RS485.is_connected (snd (disconnect c)) = false /\
   disconnect (snd (disconnect c)) = (Return tt, snd (disconnect c)) /\
   (forall n, Nat.iter n (fun c' => snd (disconnect c')) (snd (disconnect c))
              = snd (disconnect c)) /\
   (serial_conn c = None -> disconnect c = (Return tt, c))) /\
  (forall device_id,
     fst (Sensor.close (mkSensor device_id c)) = Return tt /\
     Sensor.is_connected (snd (Sensor.close (mkSensor device_id c))) = false /\
     Sensor.close (snd (Sensor.close (mkSensor device_id c)))
     = (Return tt, snd (Sensor.close (mkSensor device_id c)))).
Proof.
  intros Hreach. apply reachable_consistent in Hreach.
  assert (Hmain : fst (disconnect c) = Return tt /\
                  RS485.is_connected (snd (disconnect c)) = false /\
                  disconnect (snd (disconnect c)) = (Return tt, snd (disconnect c)) /\
                  (serial_conn c = None -> disconnect c = (Return tt, c))).
  { unfold consistent in Hreach.
    destruct c as [p b tmo [s|] sys conn]; cbn in Hreach.
    - destruct (is_open s) eqn:Hopen.
      + unfold disconnect, bind, get, put, ret. cbn. rewrite Hopen. cbn.
        repeat split; intros Hnone; discriminate.
      + assert (conn = false) as ->.
        { destruct conn; [|reflexivity]. destruct (Hreach eq_refl) as (s0 & E & Hs0).
          injection E as <-. congruence. }
        unfold disconnect, bind, get, put, ret. cbn. rewrite Hopen. cbn. rewrite Hopen.
        repeat split; intros Hnone; discriminate.
    - assert (conn = false) as ->.
      { destruct conn; [|reflexivity]. destruct (Hreach eq_refl) as (s0 & E & _).
        discriminate. }
      unfold disconnect, bind, get, put, ret. cbn. repeat split. }
  split.
  { destruct Hmain as (Hret & Hflag & Hagain & Hnone).
    repeat (split; [assumption|]). split; [|exact Hnone].
    induction n as [|n IH]; [reflexivity|].
    rewrite Nat.iter_succ, IH. cbv beta. rewrite Hagain. reflexivity. }
  intros id. destruct Hmain as (Hret & Hflag & Hagain & _).
  unfold Sensor.close, on_comm, Sensor.is_connected.
  cbn [transport_disconnect transport_is_connected RS485_Transport comm Sensor.device_id].
  destruct (disconnect c) as [o c'] eqn:Hd. cbn [fst snd] in *. subst o.
  cbn [comm Sensor.device_id]. rewrite Hagain. auto.
Qed.

(** A session that was opened, and one on a host where no port could
    be. *)
Lemma disconnect_is_idempotent_witness :
  (RS485.is_connected (comm (bench_sensor [frame_100])) = true /\
   RS485.is_connected (snd (disconnect (comm (bench_sensor [frame_100])))) = false /\
   disconnect (snd (disconnect (comm (bench_sensor [frame_100]))))
   = (Return tt, snd (disconnect (comm (bench_sensor [frame_100]))))) /\
  (serial_conn (RS485.init bare_env "Linux" None 9600 1) = None /\
   fst (disconnect (RS485.init bare_env "Linux" None 9600 1)) = Return tt /\
   RS485.is_connected (snd (disconnect (RS485.init bare_env "Linux" None 9600 1))) = false).
Proof.
  split.
  - destruct (disconnect_is_idempotent (comm (bench_sensor [frame_100])))
      as ((_ & Hflag & Hagain & _ & _) & _).
    + apply (reach_init (bench_env [frame_100]) "Linux" None 9600 1).
    + split; [reflexivity|]. split; [exact Hflag | exact Hagain].
  - destruct (disconnect_is_idempotent (RS485.init bare_env "Linux" None 9600 1))
      as ((Hret & Hflag & _ & _ & _) & _).
    + apply reach_init.
    + split; [reflexivity|]. split; [exact Hret | exact Hflag].
Defined.

(** * Further properties of the code *)

(** ** The codec *)

(** X1. [calculate_crc16] never raises: on every input it returns exactly
    two bytes, the low byte of a 16-bit accumulator and then its high
    byte. *)
Theorem calculate_crc16_two_bytes (data : bytes) :
  exists lo hi,
    calculate_crc16 data = Return [lo; hi] /\
    0 <= crc_loop data < 65536 /\
    256 * byte_val hi + byte_val lo = crc_loop data.
Proof.
  destruct (calculate_crc16_bytes data) as (lo & hi & E & Vlo & Vhi).
  exists lo, hi. split; [exact E|]. split; [apply crc_loop_range|].
  rewrite Vlo, Vhi. pose proof (Z.div_mod (crc_loop data) 256). lia.
Qed.

Lemma crc_shift_even (y : Z) : crc_shift (2 * y) = y.
Proof.
  unfold crc_shift.
  change (Z.land (2 * y) 0x0001) with (Z.land (2 * y) (Z.ones 1)).
  rewrite Z.land_ones by lia. change (2 ^ 1) with 2.
  replace ((2 * y) mod 2) with 0
    by (symmetry; rewrite Z.mul_comm; apply Z.mod_mul; lia).
  cbn [Z.eqb]. rewrite Z.shiftr_div_pow2 by lia. change (2 ^ 1) with 2.
  rewrite Z.mul_comm. apply Z.div_mul. lia.
Qed.

Lemma crc_shift_8_high (h : Z) : Nat.iter 8 crc_shift (256 * h) = h.
Proof.
  replace (256 * h) with (2 * (2 * (2 * (2 * (2 * (2 * (2 * (2 * h)))))))) by lia.
  unfold Nat.iter. cbn [nat_rect]. rewrite !crc_shift_even. reflexivity.
Qed.

Lemma lxor_low_byte (c : Z) : 0 <= c -> Z.lxor c (c mod 256) = 256 * (c / 256).
Proof.
  intros Hc. apply Z.bits_inj'. intros n Hn.
  rewrite Z.lxor_spec. change 256 with (2 ^ 8).
  rewrite Z.mul_comm, <- Z.shiftl_mul_pow2, <- Z.shiftr_div_pow2 by lia.
  destruct (Z.lt_ge_cases n 8) as [Hlt|Hge].
  - rewrite Z.mod_pow2_bits_low by lia. rewrite Z.shiftl_spec_low by lia.
    apply xorb_nilpotent.
  - rewrite Z.mod_pow2_bits_high by lia. rewrite xorb_false_r.
    rewrite Z.shiftl_spec by lia. rewrite Z.shiftr_spec by lia.
    f_equal. lia.
Qed.

Lemma crc_of_frame_residue (data : bytes) (lo hi : byte) :
  calculate_crc16 data = Return [lo; hi] -> crc_loop (data ++ [lo; hi]) = 0.
Proof.
  intros E0.
  destruct (calculate_crc16_bytes data) as (lo' & hi' & E & Vlo & Vhi).
  rewrite E in E0. injection E0 as -> ->.
  pose proof (crc_loop_range data) as Hc.
  unfold crc_loop in *. rewrite fold_left_app. cbn [fold_left].
  set (c := fold_left crc_byte data 0xFFFF) in *.
  unfold crc_byte at 2. rewrite Vlo, lxor_low_byte by lia.
  rewrite crc_shift_8_high. unfold crc_byte. rewrite Vhi, Z.lxor_nilpotent.
  reflexivity.
Qed.

(** X2. The CRC of a frame followed by its own two CRC bytes is zero:
    a receiver that runs the same loop over the whole frame ends with an
    empty accumulator. *)
Theorem crc_of_frame_with_crc_is_zero (data : bytes) :
  exists crc, calculate_crc16 data = Return crc /\ crc_loop (data ++ crc) = 0.
Proof.
  destruct (calculate_crc16_bytes data) as (lo & hi & E & _).
  exists [lo; hi]. split; [exact E | apply crc_of_frame_residue, E].
Qed.

Lemma struct_pack_H_bytes (x : Z) :
  0 <= x <= 65535 ->
  exists hi lo, struct_pack_H x = Return [hi; lo] /\ 256 * byte_val hi + byte_val lo = x.
Proof.
  intros Hx. unfold struct_pack_H.
  replace ((0 <=? x) && (x <=? 65535)) with true
    by (symmetry; apply andb_true_iff; split; apply Z.leb_le; lia).
  change 255 with (Z.ones 8). rewrite Z.land_ones by lia.
  rewrite Z.shiftr_div_pow2 by lia. change (2 ^ 8) with 256.
  destruct (bytes_of_ints_pair (x / 256) (x mod 256)) as (hi & lo & E & Vhi & Vlo).
  - split; [apply Z.div_pos; lia | apply Z.div_lt_upper_bound; lia].
  - apply Z.mod_pos_bound; lia.
  - exists hi, lo. split; [exact E|]. rewrite Vhi, Vlo.
    pose proof (Z.div_mod x 256). lia.
Qed.

(** X3. For a device id and a function code in [0, 255] and an address
    and a count in [0, 65535], [create_command] returns a frame of eight
    bytes from which every argument reads back: device id at index 0,
    function code at index 1, address and count big-endian at indices 2
    and 4; its last two bytes are the CRC-16 of the first six. *)
Theorem create_command_frame (device_id function_code address count : Z) :
  0 <= device_id < 256 -> 0 <= function_code < 256 ->
  0 <= address <= 65535 -> 0 <= count <= 65535 ->
  exists frame,
    create_command device_id function_code address count = Return frame /\
    length frame = 8%nat /\
    index frame 0 = Return device_id /\
    index frame 1 = Return function_code /\
    uint16_be frame 2 = Some address /\
    uint16_be frame 4 = Some count /\
    crc_matches frame = true /\
    crc_loop frame = 0.
Proof.
  intros Hid Hfc Haddr Hcnt. unfold create_command.
  destruct (bytes_of_ints_pair device_id function_code Hid Hfc) as (bi & bf & E1 & Vi & Vf).
  destruct (struct_pack_H_bytes address Haddr) as (ah & al & E2 & Va).
  destruct (struct_pack_H_bytes count Hcnt) as (ch & cl & E3 & Vc).
  rewrite E1, E2, E3. cbn [obind app].
  destruct (calculate_crc16_bytes [bi; bf; ah; al; ch; cl]) as (lo & hi & E4 & Vlo & Vhi).
  pose proof (crc_of_frame_residue [bi; bf; ah; al; ch; cl] lo hi E4) as Hres.
  rewrite E4. cbn [obind app].
  eexists. split; [reflexivity|].
  split; [reflexivity|].
  split; [cbn; congruence|].
  split; [cbn; congruence|].
  split; [cbn; congruence|].
  split; [cbn; congruence|].
  split; [|exact Hres].
  unfold crc_matches. cbn [length Nat.sub firstn skipn]. rewrite E4.
  destruct (List.list_eq_dec byte_eq_dec [lo; hi] [lo; hi]); congruence.
Qed.

(** The request for the nitrogen register. *)
Lemma create_command_frame_witness :
  exists frame,
    create_command 1 3 0x1E 1 = Return frame /\
    length frame = 8%nat /\
    index frame 0 = Return 1 /\
    index frame 1 = Return 3 /\
    uint16_be frame 2 = Some 0x1E /\
    uint16_be frame 4 = Some 1 /\
    crc_matches frame = true /\
    crc_loop frame = 0.
Proof. apply (create_command_frame 1 3 0x1E 1); lia. Defined.

Lemma in_byte_range (x : Z) : (0 <=? x) && (x <? 256) = true <-> 0 <= x < 256.
Proof. rewrite andb_true_iff, Z.leb_le, Z.ltb_lt. reflexivity. Qed.

Lemma bytes_of_ints_pair_error (x y : Z) :
  ~ (0 <= x < 256 /\ 0 <= y < 256) -> bytes_of_ints [x; y] = Raise ValueError.
Proof.
  intros Hbad. cbn [bytes_of_ints].
  destruct ((0 <=? x) && (x <? 256)) eqn:Ex; [|reflexivity].
  apply in_byte_range in Ex.
  destruct (byte_of_Z_val x Ex) as (b & -> & _).
  destruct ((0 <=? y) && (y <? 256)) eqn:Ey; [|reflexivity].
  apply in_byte_range in Ey. tauto.
Qed.

Lemma struct_pack_H_error (x : Z) :
  ~ (0 <= x <= 65535) -> struct_pack_H x = Raise StructError.
Proof.
  intros Hbad. unfold struct_pack_H.
  destruct ((0 <=? x) && (x <=? 65535)) eqn:E; [|reflexivity].
  apply andb_true_iff in E. rewrite !Z.leb_le in E. tauto.
Qed.

(** X4. [create_command] raises ValueError when the device id or the
    function code is not a byte, and, these two being bytes, struct.error
    when the address or the count does not fit 16 unsigned bits; it
    never cuts a value down to make it fit. *)
Theorem create_command_errors (device_id function_code address count : Z) :
  (~ (0 <= device_id < 256 /\ 0 <= function_code < 256) ->
   create_command device_id function_code address count = Raise ValueError) /\
  (0 <= device_id < 256 -> 0 <= function_code < 256 ->
   ~ (0 <= address <= 65535 /\ 0 <= count <= 65535) ->
   create_command device_id function_code address count = Raise StructError).
Proof.
  split.
  - intros Hbad. unfold create_command.
    rewrite (bytes_of_ints_pair_error _ _ Hbad). reflexivity.
  - intros Hid Hfc Hbad. unfold create_command.
    destruct (bytes_of_ints_pair device_id function_code Hid Hfc) as (bi & bf & -> & _).
    cbn [obind].
    destruct (Z_le_dec 0 address) as [Ha0|Ha0];
      [destruct (Z_le_dec address 65535) as [Ha1|Ha1]|];
      try (rewrite (struct_pack_H_error address) by lia; reflexivity).
    destruct (struct_pack_H_bytes address (conj Ha0 Ha1)) as (ah & al & -> & _).
    cbn [obind]. rewrite (struct_pack_H_error count) by lia. reflexivity.
Qed.

(** Device id 256, then register address 65536. *)
Lemma create_command_errors_witness :
  create_command 256 3 0x1E 1 = Raise ValueError /\
  create_command 1 3 65536 1 = Raise StructError.
Proof.
  split.
  - apply (proj1 (create_command_errors 256 3 0x1E 1)). lia.
  - apply (proj2 (create_command_errors 1 3 65536 1)); lia.
Defined.

(** ** The read methods *)

Lemma uint16_be_range (data : bytes) (off : nat) (v : Z) :
  uint16_be data off = Some v -> 0 <= v < 65536.
Proof.
  unfold uint16_be.
  destruct (nth_error data off) as [hi|]; [|discriminate].
  destruct (nth_error data (S off)) as [lo|]; [|discriminate].
  intros [= <-]. pose proof (byte_val_range hi). pose proof (byte_val_range lo). lia.
Qed.

(** X5. Whatever the transport hands back, an integer returned by
    [read_nitrogen], [read_phosphorus], [read_potassium] or [read_ec],
    or stored by [read_npk] or [read_ec_ph], lies in [0, 65535]. *)
Theorem read_values_fit_16_bits {C} `{Transport C} (self : TaidacentSoilSensor C) :
  (forall v, fst (read_nitrogen self) = Return (Some v) -> 0 <= v <= 65535) /\
  (forall v, fst (read_phosphorus self) = Return (Some v) -> 0 <= v <= 65535) /\
  (forall v, fst (read_potassium self) = Return (Some v) -> 0 <= v <= 65535) /\
  (forall v, fst (read_ec self) = Return (Some v) -> 0 <= v <= 65535) /\
  (forall d key v, fst (read_npk self) = Return d -> d !! key = Some (VInt v) ->
                   0 <= v <= 65535) /\
  (forall d key v, fst (read_ec_ph self) = Return d -> d !! key = Some (VInt v) ->
                   0 <= v <= 65535).
Proof.
  rewrite read_nitrogen_single, read_phosphorus_single, read_potassium_single,
    read_ec_single.
  assert (Hsingle : forall cmd v,
            fst (read_single cmd (fun x : Z => x) self) = Return (Some v) ->
            0 <= v <= 65535).
  { intros cmd v Hv. apply read_single_some_inv in Hv.
    destruct Hv as (r & raw & _ & _ & Hraw & ->).
    apply uint16_be_range in Hraw. lia. }
  split; [apply Hsingle|]. split; [apply Hsingle|].
  split; [apply Hsingle|]. split; [apply Hsingle|].
  split; intros d key v Hd Hkey.
  - destruct (fst (transport_send_and_receive CMD_READ_NPK (Some 11%nat) None (comm self)))
      as [[r|]|e] eqn:Hx;
      [destruct (accepts (device_id self) 11 r) eqn:Hacc|..];
      try (rewrite read_npk_reject in Hd by (intros r' Hr'; congruence);
           cbn [fst] in Hd; injection Hd as <-;
           apply npk_unavailable_all_none in Hkey; discriminate).
    destruct (read_npk_accept self r Hx Hacc) as (n & p & k & Hn & Hp & Hk & Hrun).
    rewrite Hrun in Hd. cbn [fst] in Hd. injection Hd as <-.
    rewrite npk_values in Hkey.
    apply uint16_be_range in Hn, Hp, Hk.
    repeat case_decide; try discriminate; injection Hkey as <-; lia.
  - destruct (fst (transport_send_and_receive CMD_READ_EC_PH (Some 13%nat) None (comm self)))
      as [[r|]|e] eqn:Hx;
      [destruct (accepts (device_id self) 13 r) eqn:Hacc|..];
      try (rewrite read_ec_ph_reject in Hd by (intros r' Hr'; congruence);
           cbn [fst] in Hd; injection Hd as <-;
           apply ec_ph_unavailable_all_none in Hkey; discriminate).
    destruct (read_ec_ph_accept self r Hx Hacc) as (ec & ph & Hec & Hph & Hrun).
    rewrite Hrun in Hd. cbn [fst] in Hd. injection Hd as <-.
    rewrite ec_ph_values in Hkey.
    apply uint16_be_range in Hec.
    repeat case_decide; try discriminate; injection Hkey as <-; lia.
Qed.

(** Register value 1000 for EC. *)
Lemma read_values_fit_16_bits_witness :
  fst (read_ec (bench_sensor [[x01; x03; x02; x03; xe8; xb8; xfa]])) = Return (Some 1000) /\
  0 <= 1000 <= 65535.
Proof.
  assert (E : fst (read_ec (bench_sensor [[x01; x03; x02; x03; xe8; xb8; xfa]]))
              = Return (Some 1000)) by (vm_compute; reflexivity).
  split; [exact E|].
  exact (proj1 (proj2 (proj2 (proj2 (read_values_fit_16_bits _)))) 1000 E).
Defined.

Lemma read_single_run {C} `{Transport C} {A} (cmd : bytes) (scale : Z -> A)
  (self : TaidacentSoilSensor C) :
  exists v, read_single cmd scale self
            = (Return v, mkSensor (device_id self)
                           (snd (transport_send_and_receive cmd (Some 7%nat) None (comm self)))).
Proof.
  destruct (fst (transport_send_and_receive cmd (Some 7%nat) None (comm self)))
    as [[r|]|e] eqn:Hx;
    [destruct (accepts (device_id self) 7 r) eqn:Hacc|..];
    try (rewrite read_single_reject by (intros r' Hr'; congruence); eauto).
  destruct (read_single_accept cmd scale self r Hx Hacc) as (v & _ & ->). eauto.
Qed.

Lemma read_npk_run {C} `{Transport C} (self : TaidacentSoilSensor C) :
  exists d, read_npk self
            = (Return d, mkSensor (device_id self)
                           (snd (transport_send_and_receive CMD_READ_NPK (Some 11%nat) None
                                   (comm self)))) /\
            dom d = ({["nitrogen"; "phosphorus"; "potassium"]} : gset string).
Proof.
  destruct (fst (transport_send_and_receive CMD_READ_NPK (Some 11%nat) None (comm self)))
    as [[r|]|e] eqn:Hx;
    [destruct (accepts (device_id self) 11 r) eqn:Hacc|..];
    try (rewrite read_npk_reject by (intros r' Hr'; congruence);
         eexists; split; [reflexivity | apply npk_unavailable_keys]).
  destruct (read_npk_accept self r Hx Hacc) as (n & p & k & _ & _ & _ & ->).
  eexists; split; [reflexivity | apply npk_keys].
Qed.

Lemma read_ec_ph_run {C} `{Transport C} (self : TaidacentSoilSensor C) :
  exists d, read_ec_ph self
            = (Return d, mkSensor (device_id self)
                           (snd (transport_send_and_receive CMD_READ_EC_PH (Some 13%nat) None
                                   (comm self)))) /\
            dom d = ({["ec"; "ph"]} : gset string).
Proof.
  destruct (fst (transport_send_and_receive CMD_READ_EC_PH (Some 13%nat) None (comm self)))
    as [[r|]|e] eqn:Hx;
    [destruct (accepts (device_id self) 13 r) eqn:Hacc|..];
    try (rewrite read_ec_ph_reject by (intros r' Hr'; congruence);
         eexists; split; [reflexivity | apply ec_ph_unavailable_keys]).
  destruct (read_ec_ph_accept self r Hx Hacc) as (ec & ph & _ & _ & ->).
  eexists; split; [reflexivity | apply ec_ph_keys].
Qed.

(** X6. Every read method returns, even when the transport raises, after
    exactly one exchange: its own request, with the expected length 7,
    11 or 13 and no timeout of its own.  A failed exchange is not tried
    again, and the device id is left as it was. *)
Theorem reads_make_one_exchange {C} `{Transport C} (self : TaidacentSoilSensor C) :
  let after cmd n :=
    mkSensor (device_id self) (snd (transport_send_and_receive cmd (Some n) None (comm self))) in
  (exists v, read_nitrogen self = (Return v, after CMD_READ_N 7%nat)) /\
  (exists v, read_phosphorus self = (Return v, after CMD_READ_P 7%nat)) /\
  (exists v, read_potassium self = (Return v, after CMD_READ_K 7%nat)) /\
  (exists v, read_ec self = (Return v, after CMD_READ_EC 7%nat)) /\
  (exists v, read_ph self = (Return v, after CMD_READ_PH 7%nat)) /\
  (exists d, read_npk self = (Return d, after CMD_READ_NPK 11%nat)) /\
  (exists d, read_ec_ph self = (Return d, after CMD_READ_EC_PH 13%nat)).
Proof.
  intros after. subst after. cbv beta.
  rewrite read_nitrogen_single, read_phosphorus_single, read_potassium_single,
    read_ec_single, read_ph_single.
  split; [apply read_single_run|]. split; [apply read_single_run|].
  split; [apply read_single_run|]. split; [apply read_single_run|].
  split; [apply read_single_run|].
  split.
  - destruct (read_npk_run self) as (d & -> & _). eauto.
  - destruct (read_ec_ph_run self) as (d & -> & _). eauto.
Qed.

(** X7. [read_all] never raises.  It runs [read_npk] and then
    [read_ec_ph] on the sensor as the first left it, whether or not the
    first exchange failed, and returns a dictionary with exactly the five
    keys, holding every entry of both results. *)
Theorem read_all_merges_both_groups {C} `{Transport C} (self : TaidacentSoilSensor C) :
  exists npk_data ec_ph_data s1 s2 d,
    read_npk self = (Return npk_data, s1) /\
    read_ec_ph s1 = (Return ec_ph_data, s2) /\
    read_all self = (Return d, s2) /\
    dom d = ({["nitrogen"; "phosphorus"; "potassium"; "ec"; "ph"]} : gset string) /\
    npk_data ⊆ d /\ ec_ph_data ⊆ d.
Proof.
  destruct (read_npk_run self) as (d1 & E1 & K1).
  set (s1 := mkSensor _ _) in E1.
  destruct (read_ec_ph_run s1) as (d2 & E2 & K2).
  set (s2 := mkSensor _ _) in E2.
  exists d1, d2, s1, s2, (d2 ∪ d1).
  split; [exact E1|]. split; [exact E2|].
  split; [unfold Sensor.read_all, bind, ret; rewrite E1, E2; reflexivity|].
  assert (Hdisj : d2 ##ₘ d1).
  { apply map_disjoint_dom. rewrite K1, K2. intros x.
    rewrite !elem_of_union, !elem_of_singleton.
    intros [->| ->] [[?|?]|?]; discriminate. }
  split; [rewrite dom_union_L, K1, K2; set_solver|].
  split; [apply map_union_subseteq_r, Hdisj | apply map_union_subseteq_l].
Qed.

(** Nothing comes back for the NPK request, then the EC/pH frame. *)
Lemma read_all_merges_both_groups_witness :
  exists d, fst (Sensor.read_all (bench_sensor [[]; []; frame_ec_ph])) = Return d /\
            d !! "nitrogen" = Some VNone /\ d !! "ec" = Some (VInt 1000).
Proof.
  destruct (read_all_merges_both_groups (bench_sensor [[]; []; frame_ec_ph]))
    as (d1 & d2 & s1 & s2 & d & E1 & E2 & E & _ & Hsub1 & Hsub2).
  exists d. rewrite E. split; [reflexivity|].
  pose proof (f_equal fst E1) as F1. pose proof (f_equal snd E1) as S1.
  cbn [fst snd] in F1, S1. subst s1.
  pose proof (f_equal fst E2) as F2. cbn [fst] in F2.
  assert (Q1 : fst (read_npk (bench_sensor [[]; []; frame_ec_ph])) = Return npk_unavailable)
    by (vm_compute; reflexivity).
  assert (Q2 : fst (read_ec_ph (snd (read_npk (bench_sensor [[]; []; frame_ec_ph]))))
               = Return (<["ph" := VFloat 6.8]> (<["ec" := VInt 1000]> ec_ph_unavailable)))
    by (vm_compute; reflexivity).
  rewrite Q1 in F1. rewrite Q2 in F2. injection F1 as <-. injection F2 as <-.
  split.
  - apply (lookup_weaken _ _ _ _ (eq_refl : npk_unavailable !! "nitrogen" = Some VNone) Hsub1).
  - refine (lookup_weaken _ _ _ _ _ Hsub2). reflexivity.
Defined.

(** ** The transport: what never escapes *)

Lemma returns_ret {S A} (a : A) : returns (@ret S A a).
Proof. intros s. exists a. reflexivity. Qed.

Lemma returns_get {S} : returns (@get S).
Proof. intros s. exists s. reflexivity. Qed.

Lemma returns_put {S} (s0 : S) : returns (put s0).
Proof. intros s. exists tt. reflexivity. Qed.

Lemma returns_bind {S A B} (m : M S A) (k : A -> M S B) :
  returns m -> (forall a, returns (k a)) -> returns (bind m k).
Proof.
  intros Hm Hk s. unfold bind. destruct (Hm s) as (a & Ha).
  destruct (m s) as [o s']. cbn [fst] in Ha. subst o. apply Hk.
Qed.

(** A [try] whose handler returns does so itself, whatever its body. *)
Lemma returns_try_except {S A} (m : M S A) (h : exn -> M S A) :
  (forall e, returns (h e)) -> returns (try_except m h).
Proof.
  intros Hh s. unfold try_except. destruct (m s) as [[a|e] s']; [eauto | apply Hh].
Qed.

(** X8. The methods of [RS485Communication] that do their work inside a
    [try] with a handler for every exception, [connect], [detect_port],
    [send_command] and [read_response], and [send_and_receive], which
    calls the last two, let no exception out: they all return, whatever
    the host and the port do and whatever per-call timeout is passed. *)
Theorem rs485_methods_return (env : Env) (command : bytes) (size : option nat)
  (t : option float) :
  returns (connect env) /\ returns (detect_port env) /\
  returns (send_command command) /\ returns (read_response size t) /\
  returns (send_and_receive command size t).
Proof.
  assert (Hsend : returns (send_command command)).
  { unfold send_command. apply returns_bind; [apply returns_get|]. intros self.
    destruct (_ || _); [apply returns_ret|].
    apply returns_try_except. intros e. apply returns_ret. }
  assert (Hread : returns (read_response size t)).
  { unfold read_response. apply returns_bind; [apply returns_get|]. intros self.
    destruct (_ || _); [apply returns_ret|].
    apply returns_try_except. intros e. apply returns_ret. }
  split; [|split; [|split; [exact Hsend|split; [exact Hread|]]]].
  - unfold connect. apply returns_try_except. intros e.
    apply returns_bind; [apply returns_get|]. intros self.
    apply returns_bind; [apply returns_put | intros _; apply returns_ret].
  - unfold detect_port. apply returns_try_except. intros e. apply returns_ret.
  - unfold send_and_receive. apply returns_bind; [exact Hsend|].
    intros [|]; [|apply returns_ret].
    apply returns_bind; [|intros _; exact Hread].
    intros c. exists tt. reflexivity.
Qed.

Lemma unconnected_refused (c : RS485Communication) (command : bytes)
  (size : option nat) (t : option float) :
  RS485.is_connected c = false \/ serial_conn c = None ->
  send_command command c = (Return false, c) /\
  read_response size t c = (Return None, c) /\
  send_and_receive command size t c = (Return None, c).
Proof.
  intros Hoff.
  assert (Hguard : negb (RS485.is_connected c) || negb (conn_truthy (serial_conn c)) = true).
  { destruct Hoff as [-> | ->]; [reflexivity | apply orb_true_r]. }
  assert (Hsend : send_command command c = (Return false, c)).
  { unfold send_command, bind, get, ret. rewrite Hguard. reflexivity. }
  split; [exact Hsend|]. split.
  - unfold read_response, bind, get, ret. rewrite Hguard. reflexivity.
  - unfold send_and_receive, bind. rewrite Hsend. reflexivity.
Qed.

(** X9. On a session that is not connected, or holds no port,
    [send_command] returns [False] and [read_response] and
    [send_and_receive] return [None], and the session is left exactly as
    it was: nothing is written, read or waited for. *)
Theorem unconnected_exchange_is_refused (c : RS485Communication) (command : bytes)
  (size : option nat) (t : option float) :
  RS485.is_connected c = false \/ serial_conn c = None ->
  send_command command c = (Return false, c) /\
  read_response size t c = (Return None, c) /\
  send_and_receive command size t c = (Return None, c).
Proof. apply unconnected_refused. Qed.

(** A host without pyserial. *)
Lemma unconnected_exchange_is_refused_witness :
  send_and_receive CMD_READ_N (Some 7%nat) None (RS485.init bare_env "Linux" None 9600 1)
  = (Return None, RS485.init bare_env "Linux" None 9600 1).
Proof.
  apply (unconnected_exchange_is_refused (RS485.init bare_env "Linux" None 9600 1)).
  left. reflexivity.
Defined.

(** X10. While [is_connected()] is false, as on a sensor that was never
    opened or has been closed, every read method returns [None], or the
    dictionary whose values are all [None], and leaves the sensor exactly
    as it was. *)
Theorem unconnected_sensor_reads_nothing (self : TaidacentSoilSensor RS485Communication) :
  Sensor.is_connected self = false ->
  read_nitrogen self = (Return None, self) /\
  read_phosphorus self = (Return None, self) /\
  read_potassium self = (Return None, self) /\
  read_ec self = (Return None, self) /\
  read_ph self = (Return None, self) /\
  read_npk self = (Return npk_unavailable, self) /\
  read_ec_ph self = (Return ec_ph_unavailable, self) /\
  Sensor.read_all self = (Return (ec_ph_unavailable ∪ npk_unavailable), self).
Proof.
  destruct self as [id c]. unfold Sensor.is_connected. cbn [comm transport_is_connected
    RS485_Transport]. intros Hoff.
  assert (Hex : forall cmd n,
            transport_send_and_receive cmd (Some n) None (comm (mkSensor id c))
            = (Return None, c)).
  { intros cmd n. cbn [transport_send_and_receive RS485_Transport comm].
    apply (unconnected_refused c cmd (Some n) None). left. exact Hoff. }
  assert (Hsingle : forall A cmd (scale : Z -> A),
            read_single cmd scale (mkSensor id c) = (Return None, mkSensor id c)).
  { intros A cmd scale. rewrite read_single_reject.
    - rewrite Hex. reflexivity.
    - intros r. rewrite Hex. discriminate. }
  assert (Hnpk : read_npk (mkSensor id c) = (Return npk_unavailable, mkSensor id c)).
  { rewrite read_npk_reject; [rewrite Hex; reflexivity|].
    intros r. rewrite Hex. discriminate. }
  assert (Hecph : read_ec_ph (mkSensor id c) = (Return ec_ph_unavailable, mkSensor id c)).
  { rewrite read_ec_ph_reject; [rewrite Hex; reflexivity|].
    intros r. rewrite Hex. discriminate. }
  rewrite read_nitrogen_single, read_phosphorus_single, read_potassium_single,
    read_ec_single, read_ph_single.
  repeat (split; [first [apply Hsingle | exact Hnpk | exact Hecph]|]).
  unfold Sensor.read_all, bind, ret. rewrite Hnpk, Hecph. reflexivity.
Qed.

(** The sensor of the bench once closed. *)
Lemma unconnected_sensor_reads_nothing_witness :
  read_nitrogen (snd (Sensor.close (bench_sensor [frame_100])))
  = (Return None, snd (Sensor.close (bench_sensor [frame_100]))).
Proof.
  apply (unconnected_sensor_reads_nothing (snd (Sensor.close (bench_sensor [frame_100])))).
  reflexivity.
Defined.

(** ** The transport: a whole exchange *)

Lemma elapse_pending (s : Serial) : pending (elapse s) = pending s.
Proof.
  destruct s as [o st iw ln snt wf rf]. unfold pending, elapse.
  destruct ln as [|chunk rest]; [reflexivity|].
  cbn [in_waiting line concat]. rewrite app_assoc. reflexivity.
Qed.

Lemma elapse_set_timeout (t : option float) (s : Serial) :
  elapse (set_timeout t s) = set_timeout t (elapse s).
Proof.
  destruct s as [o st iw ln snt wf rf]. unfold elapse, set_timeout.
  destruct ln; reflexivity.
Qed.

(** What a read returns is a prefix of what is there once it has waited,
    whether it had to wait or not. *)
Lemma firstn_in_waiting (size : nat) (s : Serial) :
  firstn size (in_waiting (if (length (in_waiting s) <? size)%nat then elapse s else s))
  = firstn size (in_waiting (elapse s)).
Proof.
  destruct (Nat.ltb_spec (length (in_waiting s)) size) as [Hlt|Hge]; [reflexivity|].
  destruct s as [o st iw ln snt wf rf]. unfold elapse.
  destruct ln as [|chunk rest]; [reflexivity|].
  cbn [in_waiting line] in *. rewrite firstn_app.
  replace (size - length iw)%nat with 0%nat by lia.
  cbn [firstn]. rewrite app_nil_r. reflexivity.
Qed.

Lemma read_run (size : nat) (s : Serial) :
  is_open s = true -> read_fault s = false ->
  read size s = (Return (firstn size (in_waiting (elapse s))), after_read size None s).
Proof.
  intros Hopen Hrf. unfold read, after_read. rewrite Hopen, Hrf. cbn [negb].
  rewrite firstn_in_waiting. reflexivity.
Qed.

Lemma read_response_sized_run (c : RS485Communication) (s : Serial) (size : nat)
  (t : option float) :
  serial_conn c = Some s -> RS485.is_connected c = true ->
  is_open s = true -> read_fault s = false ->
  timeouts_accepted t s ->
  read_response (Some size) t c
  = (Return (Some (firstn size (in_waiting (elapse s)))),
     set_serial_conn (Some (after_read size t s)) c).
Proof.
  intros Hs Hconn Hopen Hrf Hacc.
  unfold read_response, try_except, bind, on_serial, get, put, ret.
  rewrite Hconn, Hs. cbn [negb orb conn_truthy].
  destruct t as [t|].
  - destruct Hacc as [Ht H0].
    rewrite Hs. cbn [set_serial_conn serial_conn].
    unfold assign_timeout at 1. rewrite Ht. cbn [set_serial_conn serial_conn].
    rewrite (read_run size (set_timeout (Some t) s)) by assumption.
    rewrite elapse_set_timeout.
    unfold after_read. cbn [set_serial_conn serial_conn].
    destruct (PySerial.timeout s) as [t0|]; [|reflexivity].
    unfold assign_timeout. rewrite H0. reflexivity.
  - rewrite Hs. rewrite (read_run size s) by assumption. reflexivity.
Qed.

(** A per-call timeout the port refuses: the assignment raises before
    anything is read, and [read_response] returns [None] on a session it
    has not changed. *)
Lemma read_response_refused (c : RS485Communication) (s : Serial) (size : option nat)
  (t : option float) :
  serial_conn c = Some s -> RS485.is_connected c = true ->
  timeout_accepted t = false ->
  read_response size t c = (Return None, c).
Proof.
  intros Hs Hconn Hbad.
  destruct t as [x|]; [|discriminate].
  unfold read_response, try_except, bind, on_serial, get, put, ret.
  rewrite Hconn, Hs. cbn [negb orb conn_truthy].
  rewrite Hs. cbn [set_serial_conn serial_conn].
  unfold assign_timeout. rewrite Hbad. cbn [set_serial_conn serial_conn].
  destruct c. cbn in *. subst. reflexivity.
Qed.

Lemma send_and_receive_run (c : RS485Communication) (s : Serial) (command : bytes)
  (size : nat) (t : option float) :
  healthy c s -> timeouts_accepted t s ->
  send_and_receive command (Some size) t c
  = (Return (Some (firstn size (arrived s))),
     set_serial_conn (Some (after_exchange command size t s)) c).
Proof.
  intros (Hs & Hconn & Hopen & Hwf & Hrf) Hacc.
  unfold send_and_receive, bind.
  rewrite (send_command_writes c s command Hs Hconn Hopen Hwf).
  unfold sleep. cbn [serial_conn set_serial_conn option_map].
  set (s1 := elapse (after_write command s)).
  rewrite (read_response_sized_run
             (set_serial_conn (Some s1) (set_serial_conn (Some (after_write command s)) c))
             s1 size t eq_refl Hconn).
  - subst s1. rewrite arrived_after_write. reflexivity.
  - subst s1. rewrite elapse_is_open. exact Hopen.
  - subst s1. destruct s as [o st iw ln snt wf rf].
    unfold elapse, after_write. destruct ln; exact Hrf.
  - subst s1. destruct t as [x|]; [|exact I].
    unfold timeouts_accepted in *. rewrite elapse_timeout. exact Hacc.
Qed.

Ltac case_ifs :=
  repeat match goal with
         | |- context [if ?b then _ else _] => destruct b
         end.

Lemma after_exchange_settings (command : bytes) (size : nat) (t : option float)
  (s : Serial) :
  is_open (after_exchange command size t s) = is_open s /\
  write_fault (after_exchange command size t s) = write_fault s /\
  read_fault (after_exchange command size t s) = read_fault s /\
  sent (after_exchange command size t s) = sent s ++ command /\
  (t = None \/ PySerial.timeout s <> None ->
   PySerial.timeout (after_exchange command size t s) = PySerial.timeout s).
Proof.
  destruct s as [o st iw ln snt wf rf].
  unfold after_exchange, after_read, after_write, elapse, set_timeout, set_in_waiting.
  cbn [is_open PySerial.timeout in_waiting line sent write_fault read_fault].
  destruct ln as [|c1 [|c2 rest]], t as [t|], st as [t0|];
    cbn [is_open PySerial.timeout in_waiting line sent write_fault read_fault];
    case_ifs;
    cbn [is_open PySerial.timeout in_waiting line sent write_fault read_fault];
    repeat split; try reflexivity; intros [?|?]; congruence.
Qed.

Lemma firstn_skipn_app {A} (n : nat) (l rest : list A) :
  firstn n l ++ skipn n l ++ rest = l ++ rest.
Proof. rewrite app_assoc, firstn_skipn. reflexivity. Qed.

(** No byte is lost, repeated or reordered by a read: what it returns,
    followed by what is still to come, is what was to come. *)
Lemma after_read_pending (size : nat) (t : option float) (s : Serial) :
  firstn size (in_waiting (elapse s)) ++ pending (after_read size t s) = pending s.
Proof.
  destruct s as [o st iw ln snt wf rf].
  unfold after_read, pending, elapse, set_timeout, set_in_waiting.
  cbn [is_open PySerial.timeout in_waiting line sent write_fault read_fault].
  destruct ln as [|c1 rest], t as [t|], st as [t0|];
    cbn [is_open PySerial.timeout in_waiting line sent write_fault read_fault concat];
    destruct (Nat.ltb_spec (length iw) size) as [Hlt|Hge];
    cbn [is_open PySerial.timeout in_waiting line sent write_fault read_fault concat];
    first [ rewrite firstn_skipn_app, <- ?app_assoc; reflexivity
          | rewrite firstn_app; replace (size - length iw)%nat with 0%nat by lia;
            cbn [firstn]; rewrite app_nil_r, firstn_skipn_app; reflexivity ].
Qed.

(** X11. On a connected session whose port is open and raises nothing,
    called without a per-call timeout or with one the port takes (not
    below zero, as the timeout the port holds), [send_and_receive] writes
    the whole request, returns at most the expected number of bytes,
    namely the first of those in the input buffer when the read gives
    up, bytes left there from before the request included, and leaves
    every later byte waiting in order.  The port stays open, and its own
    timeout is put back after a per-call timeout, provided it had one. *)
Theorem exchange_on_healthy_session (c : RS485Communication) (s : Serial)
  (command : bytes) (size : nat) (t : option float) :
  healthy c s -> timeouts_accepted t s ->
  exists response s',
    send_and_receive command (Some size) t c
    = (Return (Some response), set_serial_conn (Some s') c) /\
    response = firstn size (arrived s) /\
    (length response <= size)%nat /\
    response ++ pending s' = pending s /\
    sent s' = sent s ++ command /\
    healthy (set_serial_conn (Some s') c) s' /\
    (t = None \/ PySerial.timeout s <> None -> PySerial.timeout s' = PySerial.timeout s).
Proof.
  intros Hh Hacc. exists (firstn size (arrived s)), (after_exchange command size t s).
  split; [apply send_and_receive_run; assumption|].
  destruct Hh as (Hs & Hconn & Hopen & Hwf & Hrf).
  destruct (after_exchange_settings command size t s) as (Eo & Ew & Er & Es & Et).
  split; [reflexivity|].
  split; [apply firstn_le_length|].
  split.
  { unfold after_exchange.
    rewrite <- (arrived_after_write command s).
    rewrite after_read_pending, elapse_pending.
    destruct s; reflexivity. }
  split; [exact Es|].
  split; [|exact Et].
  repeat split; try assumption; congruence.
Qed.

(** Seven bytes are asked for, with a per-call timeout of half a second;
    the frame arrives with three more bytes behind it. *)
Lemma exchange_on_healthy_session_witness :
  exists s',
    fst (send_and_receive CMD_READ_N (Some 7%nat) (Some 0.5%float)
           (RS485.init (bench_env [frame_100 ++ frame_cut]) "Linux" None 9600 1))
    = Return (Some frame_100) /\
    pending s' = frame_cut /\ sent s' = CMD_READ_N /\
    PySerial.timeout s' = Some 1%float.
Proof.
  destruct (exchange_on_healthy_session
              (RS485.init (bench_env [frame_100 ++ frame_cut]) "Linux" None 9600 1)
              (bench_port [frame_100 ++ frame_cut] 1) CMD_READ_N 7 (Some 0.5%float))
    as (response & s' & Hrun & Hresp & _ & Hpend & Hsent & _ & Htimeout).
  - repeat split.
  - split; vm_compute; reflexivity.
  - exists s'. rewrite Hrun. cbn [fst]. subst response.
    split; [reflexivity|]. split; [|split; [exact Hsent|]].
    + apply (app_inv_head frame_100). exact Hpend.
    + rewrite Htimeout; [reflexivity | right; discriminate].
Defined.

Lemma set_serial_conn_same (c : RS485Communication) (s : Serial) :
  serial_conn c = Some s -> set_serial_conn (Some s) c = c.
Proof. destruct c. cbn. intros ->. reflexivity. Qed.

(** X12. When the write raises, [send_and_receive] returns [None] and
    leaves the session exactly as it was: no pause, no read.  When the
    port refuses the per-call timeout, a number below zero, it returns
    [None] with the request already written and the pause made; nothing
    is read and the timeout of the port is the one it had.  When the
    port takes the per-call timeout and the read raises, it returns
    [None] with the request already written, and the per-call timeout is
    not taken back: it stays on the port. *)
Theorem exchange_when_port_raises (c : RS485Communication) (s : Serial)
  (command : bytes) (size : nat) (t : option float) :
  serial_conn c = Some s -> RS485.is_connected c = true -> is_open s = true ->
  (write_fault s = true ->
   send_and_receive command (Some size) t c = (Return None, c)) /\
  (write_fault s = false -> timeout_accepted t = false ->
   send_and_receive command (Some size) t c
   = (Return None, set_serial_conn (Some (elapse (after_write command s))) c) /\
   sent (elapse (after_write command s)) = sent s ++ command /\
   PySerial.timeout (elapse (after_write command s)) = PySerial.timeout s /\
   pending (elapse (after_write command s)) = pending s) /\
  (write_fault s = false -> timeout_accepted t = true -> read_fault s = true ->
   exists s',
     send_and_receive command (Some size) t c
     = (Return None, set_serial_conn (Some s') c) /\
     sent s' = sent s ++ command /\
     PySerial.timeout s' = match t with Some t' => Some t' | None => PySerial.timeout s end).
Proof.
  intros Hs Hconn Hopen. split; [|split].
  - intros Hwf.
    unfold send_and_receive, send_command, try_except, bind, on_serial, get, ret, write.
    rewrite Hconn, Hs. cbn [negb orb conn_truthy].
    rewrite Hs, Hopen, Hwf. cbn [negb].
    rewrite (set_serial_conn_same c s Hs). reflexivity.
  - intros Hwf Hbad. split.
    + unfold send_and_receive, bind.
      rewrite (send_command_writes c s command Hs Hconn Hopen Hwf).
      unfold sleep. cbn [serial_conn set_serial_conn option_map].
      rewrite (read_response_refused
                 (set_serial_conn (Some (elapse (after_write command s)))
                    (set_serial_conn (Some (after_write command s)) c))
                 (elapse (after_write command s)) (Some size) t eq_refl Hconn Hbad).
      reflexivity.
    + rewrite elapse_pending.
      destruct s as [o st iw ln snt wf rf]. unfold elapse, after_write, pending.
      cbn [line]. destruct ln; repeat split.
  - intros Hwf Hok Hrf.
    unfold send_and_receive, bind.
    rewrite (send_command_writes c s command Hs Hconn Hopen Hwf).
    unfold sleep. cbn [serial_conn set_serial_conn option_map].
    destruct s as [o st iw ln snt wf rf]. cbn in Hopen, Hwf, Hrf. subst o wf rf.
    unfold read_response, try_except, bind, on_serial, get, put, ret, read,
      after_write, elapse, assign_timeout.
    cbn [RS485.is_connected serial_conn set_serial_conn]. rewrite Hconn.
    cbn [negb orb conn_truthy is_open PySerial.timeout in_waiting line sent
         write_fault read_fault].
    destruct t as [t|]; [rewrite Hok|]; unfold set_timeout; destruct ln as [|c1 rest];
      cbn [RS485.is_connected serial_conn set_serial_conn negb is_open
           PySerial.timeout in_waiting line sent write_fault read_fault];
      eexists; (split; [reflexivity|]); split; reflexivity.
Qed.

(** A port whose reads raise, asked with a per-call timeout of 0.5; and
    the bench, asked with a per-call timeout of -1. *)
Lemma exchange_when_port_raises_witness :
  (exists s',
     send_and_receive CMD_READ_N (Some 7%nat) (Some 0.5%float)
       (mkRS485 (Some "COM1"%string) 9600 1
          (Some (mkSerial true (Some 1%float) [] [frame_100] [] false true)) "Windows" true)
     = (Return None,
        mkRS485 (Some "COM1"%string) 9600 1 (Some s') "Windows" true) /\
     sent s' = CMD_READ_N /\ PySerial.timeout s' = Some 0.5%float) /\
  fst (send_and_receive CMD_READ_N (Some 7%nat) (Some (-1)%float)
         (comm (bench_sensor [frame_100]))) = Return None.
Proof.
  split.
  - destruct (proj2 (proj2 (exchange_when_port_raises
                (mkRS485 (Some "COM1"%string) 9600 1
                   (Some (mkSerial true (Some 1%float) [] [frame_100] [] false true))
                   "Windows" true)
                (mkSerial true (Some 1%float) [] [frame_100] [] false true)
                CMD_READ_N 7 (Some 0.5%float) eq_refl eq_refl eq_refl))
                eq_refl eq_refl eq_refl)
      as (s' & Hrun & Hsent & Htimeout).
    exists s'. split; [exact Hrun|]. split; [exact Hsent | exact Htimeout].
  - destruct (proj1 (proj2 (exchange_when_port_raises
                (comm (bench_sensor [frame_100])) (bench_port [frame_100] 1)
                CMD_READ_N 7 (Some (-1)%float) eq_refl eq_refl eq_refl))
                eq_refl eq_refl)
      as (Hrun & _).
    rewrite Hrun. reflexivity.
Defined.

(** ** Opening a port *)

(** X13. On a session that is not connected, [connect] returns the flag
    [is_connected] it leaves behind, and returns [True] exactly when a
    port name is set, pyserial is installed and [serial.Serial] hands
    back an open port.  Whatever port [serial.Serial] hands back, open
    or not, becomes the port of the session; when the name is missing,
    pyserial is missing or [serial.Serial] raises, the session keeps the
    port it had.  Port name, baud rate and timeout are never changed. *)
Theorem connect_reports_the_flag (env : Env) (c : RS485Communication) :
  RS485.is_connected c = false ->
  exists b,
    fst (connect env c) = Return b /\
    RS485.is_connected (snd (connect env c)) = b /\
    (b = true <->
     port_truthy (port c) = true /\ pyserial_installed env = true /\
     exists conn,
       Serial_new env (default EmptyString (port c)) (baudrate c) (RS485.timeout c)
       = Return conn /\
       is_open conn = true) /\
    (port_truthy (port c) = true -> pyserial_installed env = true ->
     forall conn,
       Serial_new env (default EmptyString (port c)) (baudrate c) (RS485.timeout c)
       = Return conn ->
       serial_conn (snd (connect env c)) = Some conn) /\
    (port_truthy (port c) = false \/ pyserial_installed env = false \/
     (exists e, Serial_new env (default EmptyString (port c)) (baudrate c) (RS485.timeout c)
                = Raise e) ->
     serial_conn (snd (connect env c)) = serial_conn c) /\
    port (snd (connect env c)) = port c /\
    baudrate (snd (connect env c)) = baudrate c /\
    RS485.timeout (snd (connect env c)) = RS485.timeout c.
Proof.
  intros Hoff. unfold connect, try_except, bind, get, put, lift, ret.
  destruct (port_truthy (port c)) eqn:Hp; cbn [negb].
  2:{ exists false. cbn [fst snd]. rewrite Hoff.
      split; [reflexivity|]. split; [reflexivity|].
      split; [split; [discriminate | intros (Habs & _); discriminate]|].
      split; [discriminate|]. split; [reflexivity|]. auto. }
  destruct (pyserial_installed env) eqn:Hi; cbn [negb].
  2:{ exists false. cbn [fst snd]. rewrite Hoff.
      split; [reflexivity|]. split; [reflexivity|].
      split; [split; [discriminate | intros (_ & Habs & _); discriminate]|].
      split; [discriminate|]. split; [reflexivity|]. auto. }
  destruct (Serial_new env _ _ _) as [conn|e] eqn:Hnew.
  - destruct (is_open conn) eqn:Hopen; cbn.
    + exists true.
      split; [reflexivity|]. split; [reflexivity|].
      split; [split; [intros _|reflexivity]|].
      { split; [reflexivity|]. split; [reflexivity|]. exists conn. auto. }
      split; [intros _ _ conn' [= <-]; reflexivity|].
      split; [|auto].
      intros [Habs | [Habs | (e & Habs)]]; discriminate.
    + exists false.
      split; [reflexivity|]. split; [reflexivity|].
      split; [split; [discriminate|]|].
      { intros (_ & _ & conn' & [= <-] & Habs). congruence. }
      split; [intros _ _ conn' [= <-]; reflexivity|].
      split; [|auto].
      intros [Habs | [Habs | (e & Habs)]]; discriminate.
  - exists false. cbn.
    split; [reflexivity|]. split; [reflexivity|].
    split; [split; [discriminate|]|].
    { intros (_ & _ & conn' & Habs & _). discriminate. }
    split; [intros _ _ conn' Habs; discriminate|].
    split; [reflexivity|]. auto.
Qed.

(** Opening COM3 on the bench. *)
Lemma connect_reports_the_flag_witness :
  fst (connect (bench_env []) (mkRS485 (Some "COM3"%string) 9600 1 None "Windows" false))
  = Return true /\
  RS485.is_connected
    (snd (connect (bench_env []) (mkRS485 (Some "COM3"%string) 9600 1 None "Windows" false)))
  = true /\
  serial_conn
    (snd (connect (bench_env []) (mkRS485 (Some "COM3"%string) 9600 1 None "Windows" false)))
  = Some (bench_port [] 1).
Proof.
  destruct (connect_reports_the_flag (bench_env [])
              (mkRS485 (Some "COM3"%string) 9600 1 None "Windows" false) eq_refl)
    as (b & Hb & Hflag & Hiff & Hstored & _).
  assert (b = true) as ->.
  { apply Hiff. split; [reflexivity|]. split; [reflexivity|].
    exists (bench_port [] 1). split; reflexivity. }
  split; [exact Hb|]. split; [exact Hflag|].
  apply Hstored; reflexivity.
Defined.

(** ** Looking for a port *)

Lemma append_cons (x : Ascii.ascii) (a post : string) :
  (String x a ++ post)%string = String x (a ++ post)%string.
Proof. reflexivity. Qed.

Lemma prefix_append (a b : string) :
  String.prefix a b = true <-> exists post, b = (a ++ post)%string.
Proof.
  revert b. induction a as [|x a IH]; intros b.
  - split; [intros _; exists b; reflexivity | intros _; destruct b; reflexivity].
  - destruct b as [|y b]; cbn [String.prefix]; setoid_rewrite append_cons.
    + split; [discriminate | intros (post & Habs); discriminate].
    + destruct (Ascii.ascii_dec x y) as [->|Hne].
      * rewrite IH. split; intros (post & E); exists post; congruence.
      * split; [discriminate|]. intros (post & E). congruence.
Qed.

(** X14. The test behind [detect_port], [needle in hay], holds exactly
    when [hay] is some text, then [needle], then some text. *)
Theorem str_in_is_containment (needle hay : string) :
  str_in needle hay = true <-> exists pre post, hay = (pre ++ needle ++ post)%string.
Proof.
  induction hay as [|y hay IH]; cbn [str_in].
  - rewrite orb_false_r, prefix_append. split.
    + intros (post & E). exists EmptyString, post. exact E.
    + intros ([|x pre] & post & E); [exists post; exact E | discriminate].
  - rewrite orb_true_iff, prefix_append, IH. split.
    + intros [(post & E) | (pre & post & E)].
      * exists EmptyString, post. exact E.
      * exists (String y pre), post. rewrite append_cons. congruence.
    + intros ([|x pre] & post & E).
      * left. exists post. exact E.
      * right. rewrite append_cons in E. injection E as -> E. exists pre, post. exact E.
Qed.

Lemma find_first {A} (f : A -> bool) (l : list A) (d : A) :
  find f l = Some d ->
  exists l1 l2, l = l1 ++ d :: l2 /\ f d = true /\ forall x, In x l1 -> f x = false.
Proof.
  induction l as [|a l IH]; cbn [find]; [discriminate|].
  destruct (f a) eqn:Fa.
  - intros [= <-]. exists [], l. repeat split; [exact Fa | intros x []].
  - intros Hfind. destruct (IH Hfind) as (l1 & l2 & -> & Fd & Hbefore).
    exists (a :: l1), l2. repeat split; [exact Fd|].
    intros x [<-|Hx]; [exact Fa | apply Hbefore, Hx].
Qed.

Lemma port_pattern_nonempty (sys d : string) :
  port_pattern sys d = true -> port_truthy (Some d) = true.
Proof.
  destruct d; [|reflexivity]. unfold port_pattern.
  destruct (String.eqb sys "Windows"); cbn; discriminate.
Qed.

Lemma find_app_first {A} (f : A -> bool) (l1 : list A) (d : A) (l2 : list A) :
  (forall x, In x l1 -> f x = false) -> f d = true -> find f (l1 ++ d :: l2) = Some d.
Proof.
  intros Hbefore Fd. induction l1 as [|a l1 IH]; cbn [app find].
  - rewrite Fd. reflexivity.
  - rewrite (Hbefore a) by (left; reflexivity).
    apply IH. intros x Hx. apply Hbefore. right. exact Hx.
Qed.

Lemma connect_keeps_port (env : Env) (c : RS485Communication) :
  port (snd (connect env c)) = port c.
Proof.
  unfold connect, try_except, bind, get, put, lift, ret.
  destruct (port_truthy (port c)); [|reflexivity].
  destruct (pyserial_installed env); [|reflexivity]. cbn [negb].
  destruct (Serial_new env _ _ _) as [conn|e]; [|reflexivity].
  destruct (is_open conn); reflexivity.
Qed.

(** [detect_port] on a session with no port name, as a function of what
    the host lists. *)
Lemma detect_port_run (env : Env) (c : RS485Communication) :
  port c = None ->
  snd (detect_port env c)
  = if pyserial_installed env then
      match comports env with
      | Return l =>
          match find (port_pattern (system c)) l with
          | Some d => snd (connect env (set_port (Some d) c))
          | None => c
          end
      | Raise _ => c
      end
    else c.
Proof.
  intros Hnone.
  unfold detect_port, try_except, bind, lift, get, put, ret.
  destruct (pyserial_installed env) eqn:Hi; cbn [negb]; [|reflexivity].
  destruct (comports env) as [[|d0 ds]|e] eqn:Hports; try reflexivity.
  assert (Hfind : (if String.eqb (system c) "Windows"
                   then find (fun d => str_in "COM" d) (d0 :: ds)
                   else find (fun d => str_in "ttyUSB" d || str_in "ttyAMA" d
                                       || str_in "ttyS" d) (d0 :: ds))
                  = find (port_pattern (system c)) (d0 :: ds)).
  { unfold port_pattern. destruct (String.eqb (system c) "Windows"); reflexivity. }
  rewrite Hfind. clear Hfind.
  destruct (find (port_pattern (system c)) (d0 :: ds)) as [hit|] eqn:Hhit.
  - destruct (find_first _ _ _ Hhit) as (l1 & l2 & El & Fhit & Hbefore).
    cbn [port set_port]. rewrite (port_pattern_nonempty _ _ Fhit).
    assert (Erun : snd (let (o, s') := connect env (set_port (Some hit) c) in
                        match o with
                        | Return _ => (Return tt, s')
                        | Raise e => (Raise e, s')
                        end)
                   = snd (connect env (set_port (Some hit) c)))
      by (destruct (connect env (set_port (Some hit) c)) as [[b|e] c']; reflexivity).
    assert (Eout : forall (x : outcome unit * RS485Communication),
              snd (let (o, s') := x in
                   match o with
                   | Return a => (Return a, s')
                   | Raise _ => (Return tt, s')
                   end) = snd x)
      by (intros [[a|e] s']; reflexivity).
    rewrite Eout, Erun. reflexivity.
  - cbn [port]. rewrite Hnone. reflexivity.
Qed.

(** X15. On a session with no port name, on a host with pyserial:
    whenever the listing holds a device whose name passes the platform's
    test ("COM" on Windows; "ttyUSB", "ttyAMA" or "ttyS" elsewhere),
    [detect_port] takes the first such device as port name and goes on
    exactly as [connect] with that name.  It takes no name but such a
    one.  When pyserial is missing, the listing fails or is empty, or no
    name passes, the session is left exactly as it was. *)
Theorem detect_port_takes_first_match (env : Env) (c : RS485Communication) :
  port c = None ->
  (forall before d after,
     pyserial_installed env = true ->
     comports env = Return (before ++ d :: after) ->
     port_pattern (system c) d = true ->
     (forall x, In x before -> port_pattern (system c) x = false) ->
     port (snd (detect_port env c)) = Some d /\
     snd (detect_port env c) = snd (connect env (set_port (Some d) c))) /\
  (forall d, port (snd (detect_port env c)) = Some d ->
     pyserial_installed env = true /\
     exists before after,
       comports env = Return (before ++ d :: after) /\
       port_pattern (system c) d = true /\
       (forall x, In x before -> port_pattern (system c) x = false) /\
       snd (detect_port env c) = snd (connect env (set_port (Some d) c))) /\
  (pyserial_installed env = false \/ (exists e, comports env = Raise e) \/
   (exists l, comports env = Return l /\
              forall x, In x l -> port_pattern (system c) x = false) ->
   snd (detect_port env c) = c) /\
  (port (snd (detect_port env c)) = None -> snd (detect_port env c) = c).
Proof.
  intros Hnone. rewrite (detect_port_run env c Hnone).
  split; [|split; [|split]].
  - intros before d after Hi Hports Fd Hbefore.
    rewrite Hi, Hports, (find_app_first _ before d after Hbefore Fd).
    split; [|reflexivity]. rewrite connect_keeps_port. reflexivity.
  - intros d Hd.
    destruct (pyserial_installed env); [|congruence].
    destruct (comports env) as [l|e]; [|congruence].
    destruct (find (port_pattern (system c)) l) as [hit|] eqn:Hhit; [|congruence].
    rewrite connect_keeps_port in Hd. cbn [port set_port] in Hd. injection Hd as <-.
    destruct (find_first _ _ _ Hhit) as (l1 & l2 & El & Fhit & Hbefore).
    split; [reflexivity|]. exists l1, l2. rewrite El. auto.
  - intros [-> | [(e & ->) | (l & -> & Hno)]]; [reflexivity | |].
    + destruct (pyserial_installed env); reflexivity.
    + destruct (pyserial_installed env); [|reflexivity].
      destruct (find (port_pattern (system c)) l) as [hit|] eqn:Hhit; [|reflexivity].
      destruct (find_first _ _ _ Hhit) as (l1 & l2 & El & Fhit & _).
      rewrite (Hno hit) in Fhit; [discriminate|].
      rewrite El. apply in_or_app. right. left. reflexivity.
  - intros Hd.
    destruct (pyserial_installed env); [|reflexivity].
    destruct (comports env) as [l|e]; [|reflexivity].
    destruct (find (port_pattern (system c)) l) as [hit|]; [|reflexivity].
    rewrite connect_keeps_port in Hd. discriminate.
Qed.

(** A Bluetooth device is listed before two USB adapters. *)
Lemma detect_port_takes_first_match_witness :
  port (snd (detect_port
               (mkEnv true (Return ["/dev/rfcomm0"; "/dev/ttyUSB1"; "/dev/ttyUSB0"]%string)
                      (fun _ _ t => Return (bench_port [] t)))
               (mkRS485 None 9600 1 None "Linux" false)))
  = Some "/dev/ttyUSB1"%string.
Proof.
  apply (proj1 (detect_port_takes_first_match
                  (mkEnv true (Return ["/dev/rfcomm0"; "/dev/ttyUSB1"; "/dev/ttyUSB0"]%string)
                         (fun _ _ t => Return (bench_port [] t)))
                  (mkRS485 None 9600 1 None "Linux" false) eq_refl)
               ["/dev/rfcomm0"%string] "/dev/ttyUSB1"%string ["/dev/ttyUSB0"%string]).
  - reflexivity.
  - reflexivity.
  - reflexivity.
  - intros x [<- | []]. reflexivity.
Defined.

(** ** main.py: one measurement *)

Lemma dom_singleton_value (key : string) (v : value) :
  dom ({[key := v]} : gmap string value) = ({[key]} : gset string).
Proof. apply dom_singleton_L. Qed.

Lemma single_measurement {C} `{Transport C} {A} (cmd : bytes) (scale : Z -> A)
  (key : string) (to_value : option A -> value) (self : TaidacentSoilSensor C) :
  exists d,
    bind (read_single cmd scale) (fun v => ret ({[key := to_value v]} : gmap string value)) self
    = (Return d, after_requests [(cmd, 7%nat)] self) /\
    dom d = ({[key]} : gset string).
Proof.
  destruct (read_single_run cmd scale self) as (v & E).
  unfold bind, ret. rewrite E. eexists. split; [reflexivity | apply dom_singleton_value].
Qed.

Lemma read_all_run {C} `{Transport C} (self : TaidacentSoilSensor C) :
  exists d,
    Sensor.read_all self
    = (Return d, after_requests [(CMD_READ_NPK, 11%nat); (CMD_READ_EC_PH, 13%nat)] self) /\
    dom d = ({["nitrogen"; "phosphorus"; "potassium"; "ec"; "ph"]} : gset string).
Proof.
  destruct (read_npk_run self) as (d1 & E1 & K1).
  set (s1 := mkSensor _ _) in E1.
  destruct (read_ec_ph_run s1) as (d2 & E2 & K2).
  exists (d2 ∪ d1). unfold Sensor.read_all, bind, ret. rewrite E1, E2.
  split; [reflexivity|]. rewrite dom_union_L, K1, K2.
  apply set_eq. intros x. rewrite !elem_of_union, !elem_of_singleton. tauto.
Qed.

Lemma try_except_return {S A} (m : M S A) (h : exn -> M S A) (s s' : S) (a : A) :
  m s = (Return a, s') -> try_except m h s = (Return a, s').
Proof. intros E. unfold try_except. rewrite E. reflexivity. Qed.

Lemma measure_and_display_keys {C} `{Transport C} (mode : string)
  (self : TaidacentSoilSensor C) :
  exists d,
    measure_and_display mode self
    = (Return d, after_requests (requests_of_mode mode) self) /\
    dom d = keys_of_mode mode.
Proof.
  unfold measure_and_display, requests_of_mode, keys_of_mode.
  destruct (String.eqb mode "all").
  { destruct (read_all_run self) as (d & E & K).
    exists d. split; [apply try_except_return, E | exact K]. }
  destruct (String.eqb mode "npk").
  { destruct (read_npk_run self) as (d & E & K).
    exists d. split; [apply try_except_return, E | exact K]. }
  destruct (String.eqb mode "ec_ph").
  { destruct (read_ec_ph_run self) as (d & E & K).
    exists d. split; [apply try_except_return, E | exact K]. }
  destruct (String.eqb mode "n").
  { destruct (single_measurement CMD_READ_N (fun v => v) "nitrogen" value_of_int self)
      as (d & E & K).
    exists d. split; [apply try_except_return, E | exact K]. }
  destruct (String.eqb mode "p").
  { destruct (single_measurement CMD_READ_P (fun v => v) "phosphorus" value_of_int self)
      as (d & E & K).
    exists d. split; [apply try_except_return, E | exact K]. }
  destruct (String.eqb mode "k").
  { destruct (single_measurement CMD_READ_K (fun v => v) "potassium" value_of_int self)
      as (d & E & K).
    exists d. split; [apply try_except_return, E | exact K]. }
  destruct (String.eqb mode "ec").
  { destruct (single_measurement CMD_READ_EC (fun v => v) "ec" value_of_int self)
      as (d & E & K).
    exists d. split; [apply try_except_return, E | exact K]. }
  destruct (String.eqb mode "ph").
  { destruct (single_measurement CMD_READ_PH div10 "ph" value_of_float self)
      as (d & E & K).
    exists d. split; [apply try_except_return, E | exact K]. }
  exists ∅. split; [reflexivity | apply dom_empty_L].
Qed.


(** X16. [measure_and_display] never raises, whatever the transport
    does.  It makes the exchanges of its mode and no other (NPK then
    EC/pH for "all", one exchange for each other mode) and returns a
    dictionary with exactly the keys of that mode.  For a mode it does
    not know it makes no exchange and returns the empty dictionary. *)
Theorem measure_and_display_by_mode {C} `{Transport C} (mode : string)
  (self : TaidacentSoilSensor C) :
  exists d,
    measure_and_display mode self
    = (Return d, after_requests (requests_of_mode mode) self) /\
    dom d = keys_of_mode mode.
Proof. apply measure_and_display_keys. Qed.

(** Mode "ph" on the bench, and a mode that does not exist. *)
Lemma measure_and_display_by_mode_witness :
  fst (measure_and_display "ph" (bench_sensor [frame_68])) = Return {["ph" := VFloat 6.8]} /\
  measure_and_display "humidity" (bench_sensor [frame_68])
  = (Return ∅, bench_sensor [frame_68]).
Proof.
  split.
  - destruct (measure_and_display_by_mode "ph" (bench_sensor [frame_68])) as (d & E & _).
    rewrite E. cbn [fst].
    assert (Q : fst (measure_and_display "ph" (bench_sensor [frame_68]))
                = Return {["ph" := VFloat 6.8]}) by (vm_compute; reflexivity).
    rewrite E in Q. exact Q.
  - destruct (measure_and_display_by_mode "humidity" (bench_sensor [frame_68]))
      as (d & E & K).
    rewrite E. f_equal. f_equal.
    apply dom_empty_iff_L. exact K.
Defined.

(** ** main.py: the polling loop *)









(** ** main.py: the program *)





Lemma connect_cannot_open (env : Env) (c : RS485Communication) :
  pyserial_installed env = false \/
  (forall p b t, exists e, Serial_new env p b t = Raise e) ->
  RS485.is_connected c = false -> serial_conn c = None ->
  RS485.is_connected (snd (connect env c)) = false /\
  serial_conn (snd (connect env c)) = None.
Proof.
  intros Hhost Hoff Hnone. unfold connect, try_except, bind, get, put, lift, ret.
  destruct (port_truthy (port c)); cbn [negb]; [|auto].
  destruct (pyserial_installed env) eqn:Hi; cbn [negb]; [|auto].
  destruct Hhost as [Habs | Hraise]; [discriminate|].
  destruct (Hraise (default EmptyString (port c)) (baudrate c) (RS485.timeout c))
    as (e & ->).
  cbn. auto.
Qed.

Lemma detect_port_cases (env : Env) (c : RS485Communication) :
  snd (detect_port env c) = c \/
  (exists d, snd (detect_port env c) = snd (connect env (set_port (Some d) c))) \/
  snd (detect_port env c) = snd (connect env c).
Proof.
  assert (Eout : forall (x : outcome unit * RS485Communication),
            snd (let (o, s') := x in
                 match o with
                 | Return a => (Return a, s')
                 | Raise _ => (Return tt, s')
                 end) = snd x)
    by (intros [[a|e] s']; reflexivity).
  assert (Erun : forall c0,
            snd (let (o, s') := connect env c0 in
                 match o with
                 | Return _ => (Return tt, s')
                 | Raise e => (Raise e, s')
                 end) = snd (connect env c0))
    by (intros c0; destruct (connect env c0) as [[b|e] c']; reflexivity).
  unfold detect_port, try_except, bind, lift, get, put, ret.
  destruct (pyserial_installed env); cbn [negb]; [|left; reflexivity].
  destruct (comports env) as [[|d0 ds]|e]; try (left; reflexivity).
  match goal with |- context [if String.eqb ?a ?b then ?x else ?y] =>
    destruct (if String.eqb a b then x else y) as [hit|] end.
  - cbn [port set_port]. right; left. exists hit.
    destruct hit as [|a hit]; cbn [port_truthy].
    + reflexivity.
    + rewrite Eout, Erun. reflexivity.
  - destruct (port_truthy (port c)); [|left; reflexivity].
    right; right. rewrite Eout, Erun. reflexivity.
Qed.

Lemma init_cannot_open (env : Env) (sys : string) (port : option string)
  (baudrate : Z) (t : float) :
  pyserial_installed env = false \/
  (forall p b t', exists e, Serial_new env p b t' = Raise e) ->
  RS485.is_connected (RS485.init env sys port baudrate t) = false /\
  serial_conn (RS485.init env sys port baudrate t) = None.
Proof.
  intros Hhost. unfold RS485.init.
  destruct port as [p|].
  - apply connect_cannot_open; [exact Hhost | reflexivity | reflexivity].
  - destruct (detect_port_cases env (mkRS485 None baudrate t None sys false))
      as [-> | [(d & ->) | ->]].
    + auto.
    + apply connect_cannot_open; [exact Hhost | reflexivity | reflexivity].
    + apply connect_cannot_open; [exact Hhost | reflexivity | reflexivity].
Qed.

(** X19. On a host where pyserial is missing, or where [serial.Serial]
    raises for every port, [main] ends at once with exit code 1,
    whatever the port, the count and the mode asked for: the sensor holds
    no port and no measurement is made. *)
Theorem main_gives_up_without_a_port (env : Env) (sys : string) (args : Args)
  (fuel : nat) :
  pyserial_installed env = false \/
  (forall p b t, exists e, Serial_new env p b t = Raise e) ->
  fst (main env sys args fuel) = Return (Some 1) /\
  serial_conn (comm (snd (main env sys args fuel))) = None /\
  Sensor.is_connected (snd (main env sys args fuel)) = false.
Proof.
  intros Hhost.
  destruct (init_cannot_open env sys (args_port args) (args_baudrate args) 1 Hhost)
    as (Hoff & Hnone).
  unfold main, try_except, Sensor.is_connected, Sensor.init.
  cbn [comm transport_is_connected RS485_Transport]. rewrite Hoff.
  cbn [negb ret fst snd comm]. auto.
Qed.

(** A host without pyserial, asked for measurements without end. *)
Lemma main_gives_up_without_a_port_witness :
  fst (main bare_env "Linux" (mkArgs (Some "COM1"%string) 9600 5 0 "all") 0)
  = Return (Some 1).
Proof.
  apply (main_gives_up_without_a_port bare_env "Linux"
           (mkArgs (Some "COM1"%string) 9600 5 0 "all") 0).
  left. reflexivity.
Defined.

(** ** An invariant of the session *)

(** X20. On every session a program can hold, built by the constructor
    and changed only by the methods of the class on any host,
    [is_connected] is true only while the session holds an open port. *)
Theorem connected_flag_means_open_port (c : RS485Communication) :
  reachable c ->
  RS485.is_connected c = true ->
  exists s, serial_conn c = Some s /\ is_open s = true.
Proof. intros Hreach. apply (reachable_consistent c Hreach). Qed.

(** The session of the bench after one exchange. *)
Lemma connected_flag_means_open_port_witness :
  exists s,
    serial_conn (snd (send_and_receive CMD_READ_N (Some 7%nat) None
                        (RS485.init (bench_env [frame_100]) "Linux" None 9600 1)))
    = Some s /\ is_open s = true.
Proof.
  apply connected_flag_means_open_port.
  - apply reach_send_and_receive, reach_init.
  - reflexivity.
Defined.

(** ** Reading without a size *)

(** X21. On a connected session whose port is open and raises nothing,
    called without a per-call timeout or with one the port takes (not
    below zero, as the timeout the port holds), [read_response] without
    a size returns everything in the input buffer at once when there is
    something, and otherwise what one more short wait brings, be it
    nothing: the result is then the empty byte string, not [None].  The
    buffer is left empty and no byte is lost.  With a per-call timeout
    below zero it returns [None] and the session is left as it was. *)
Theorem read_response_without_size (c : RS485Communication) (s : Serial)
  (t : option float) :
  healthy c s ->
  (timeouts_accepted t s ->
   exists response s',
     read_response None t c = (Return (Some response), set_serial_conn (Some s') c) /\
     response = match in_waiting s with
                | [] => in_waiting (elapse s)
                | _ :: _ => in_waiting s
                end /\
     in_waiting s' = [] /\
     response ++ pending s' = pending s) /\
  (timeout_accepted t = false -> read_response None t c = (Return None, c)).
Proof.
  intros (Hs & Hconn & Hopen & Hwf & Hrf).
  split; [|intros Hbad; apply (read_response_refused c s None t Hs Hconn Hbad)].
  intros Hacc.
  destruct s as [o st iw ln snt wf rf]. cbn in Hopen, Hwf, Hrf. subst o wf rf.
  unfold read_response, try_except, bind, on_serial, get, put, ret, sleep,
    PySerial.read_all, set_in_waiting, elapse, pending, assign_timeout.
  rewrite Hconn, Hs. cbn [negb orb conn_truthy].
  destruct t as [t|];
    [destruct Hacc as [Ht H0]; cbn [PySerial.timeout] in H0; rewrite Ht|];
    destruct st as [t0|], iw as [|b iw], ln as [|c1 rest];
    rewrite ?Hs;
    cbn [RS485.is_connected serial_conn set_serial_conn negb is_open option_map
         PySerial.timeout in_waiting line sent write_fault read_fault app concat
         set_timeout];
    try (destruct c1 as [|b1 c1]);
    cbn [RS485.is_connected serial_conn set_serial_conn negb is_open option_map
         PySerial.timeout in_waiting line sent write_fault read_fault app concat
         set_timeout];
    rewrite ?H0;
    cbn [RS485.is_connected serial_conn set_serial_conn negb is_open option_map
         PySerial.timeout in_waiting line sent write_fault read_fault app concat
         set_timeout];
    eexists _, _; (split; [reflexivity|]); (split; [reflexivity|]);
    (split; [reflexivity|]); cbn [in_waiting line app concat];
    rewrite ?app_nil_r; reflexivity.
Qed.

(** Nothing is buffered; the frame comes during the short wait. *)
Lemma read_response_without_size_witness :
  fst (read_response None (Some 1%float)
         (RS485.init (bench_env [frame_100]) "Linux" None 9600 1))
  = Return (Some frame_100).
Proof.
  destruct (read_response_without_size
              (RS485.init (bench_env [frame_100]) "Linux" None 9600 1)
              (bench_port [frame_100] 1) (Some 1%float))
    as (Hreads & _).
  - repeat split.
  - destruct Hreads as (response & s' & Hrun & Hresp & _).
    + split; vm_compute; reflexivity.
    + rewrite Hrun. cbn [fst]. rewrite Hresp. reflexivity.
Defined.

(** ** From the wire to the value *)

(** X22. End to end, on a connected session whose port is open and
    raises nothing: when the first seven bytes in the input buffer once
    the read is over form a response from the session's device with
    function code 3, each single-register method returns the big-endian
    value of its bytes 3 and 4 ([read_ph] a tenth of it), whatever
    follows on the line; likewise [read_npk] with the first eleven bytes
    and [read_ec_ph] with the first thirteen.  The buffer is not emptied
    before the request: bytes left in it from before come first, ahead of
    those that arrive after the request, and are decoded as the start of
    the response. *)
Theorem sensor_decodes_what_arrives (self : TaidacentSoilSensor RS485Communication)
  (s : Serial) :
  healthy (comm self) s ->
  (well_formed (device_id self) 7 (firstn 7 (arrived s)) ->
   exists v,
     uint16_be (data_field (firstn 7 (arrived s))) 0 = Some v /\
     fst (read_nitrogen self) = Return (Some v) /\
     fst (read_phosphorus self) = Return (Some v) /\
     fst (read_potassium self) = Return (Some v) /\
     fst (read_ec self) = Return (Some v) /\
     fst (read_ph self) = Return (Some (PrimFloat.div (float_of_int v) 10))) /\
  (well_formed (device_id self) 11 (firstn 11 (arrived s)) ->
   exists n p k d,
     uint16_be (data_field (firstn 11 (arrived s))) 0 = Some n /\
     uint16_be (data_field (firstn 11 (arrived s))) 2 = Some p /\
     uint16_be (data_field (firstn 11 (arrived s))) 4 = Some k /\
     fst (read_npk self) = Return d /\
     d !! "nitrogen" = Some (VInt n) /\ d !! "phosphorus" = Some (VInt p) /\
     d !! "potassium" = Some (VInt k)) /\
  (well_formed (device_id self) 13 (firstn 13 (arrived s)) ->
   exists ec ph_raw d,
     uint16_be (data_field (firstn 13 (arrived s))) 4 = Some ec /\
     uint16_be (data_field (firstn 13 (arrived s))) 6 = Some ph_raw /\
     fst (read_ec_ph self) = Return d /\
     d !! "ec" = Some (VInt ec) /\
     d !! "ph" = Some (VFloat (PrimFloat.div (float_of_int ph_raw) 10))).
Proof.
  intros Hh.
  assert (Hx : forall cmd n,
            fst (transport_send_and_receive cmd (Some n) None (comm self))
            = Return (Some (firstn n (arrived s)))).
  { intros cmd n. cbn [transport_send_and_receive RS485_Transport].
    rewrite (send_and_receive_run (comm self) s cmd n None Hh I). reflexivity. }
  split; [|split]; intros Hwf; apply accepts_well_formed in Hwf.
  - rewrite read_nitrogen_single, read_phosphorus_single, read_potassium_single,
      read_ec_single, read_ph_single.
    destruct (read_single_accept CMD_READ_N (fun x : Z => x) self _ (Hx _ _) Hwf)
      as (v & Hv & EN).
    exists v. split; [exact Hv|].
    assert (Hany : forall A cmd (scale : Z -> A),
              fst (read_single cmd scale self) = Return (Some (scale v))).
    { intros A cmd scale.
      destruct (read_single_accept cmd scale self _ (Hx _ _) Hwf) as (v' & Hv' & ->).
      cbn [fst]. congruence. }
    repeat (split; [apply (Hany Z)|]). apply (Hany float).
  - destruct (read_npk_accept self _ (Hx _ _) Hwf) as (n & p & k & Hn & Hp & Hk & ->).
    eexists n, p, k, _. cbn [fst].
    repeat (split; [first [assumption | reflexivity]|]).
    rewrite !npk_values. repeat split.
  - destruct (read_ec_ph_accept self _ (Hx _ _) Hwf) as (ec & ph & Hec & Hph & ->).
    eexists ec, ph, _. cbn [fst].
    repeat (split; [first [assumption | reflexivity]|]).
    rewrite !ec_ph_values. split; reflexivity.
Qed.

(** The frame with register value 100 arrives with three bytes behind
    it; and the same frame arrives while three bytes of an earlier
    response are still in the buffer: the value read is 259. *)
Lemma sensor_decodes_what_arrives_witness :
  fst (read_nitrogen (bench_sensor [frame_100 ++ frame_cut])) = Return (Some 100) /\
  fst (read_nitrogen
         (mkSensor 1 (mkRS485 (Some "COM1"%string) 9600 1
                        (Some (mkSerial true (Some 1%float) frame_cut [frame_100] []
                                        false false))
                        "Windows" true)))
  = Return (Some 259).
Proof.
  split.
  - destruct (proj1 (sensor_decodes_what_arrives
                       (bench_sensor [frame_100 ++ frame_cut])
                       (bench_port [frame_100 ++ frame_cut] 1)
                       ltac:(repeat split)))
      as (v & Hv & HN & _).
    + split; [cbn; lia | split; reflexivity].
    + vm_compute in Hv. injection Hv as <-. exact HN.
  - destruct (proj1 (sensor_decodes_what_arrives
                       (mkSensor 1 (mkRS485 (Some "COM1"%string) 9600 1
                                      (Some (mkSerial true (Some 1%float) frame_cut
                                                      [frame_100] [] false false))
                                      "Windows" true))
                       (mkSerial true (Some 1%float) frame_cut [frame_100] [] false false)
                       ltac:(repeat split)))
      as (v & Hv & HN & _).
    + split; [cbn; lia | split; reflexivity].
    + vm_compute in Hv. injection Hv as <-. exact HN.
Defined.
